(** * Session and authenticated-request pipeline of the trading app front end

    Shallow embedding of
    - [services/api.js] (second module of [src/unnamed/part_000]): the [api]
      axios instance with its request interceptor and its 401 response
      handler;
    - [contexts/AuthContext.js] (second module of
      [src/frontend/src/contexts/ThemeContext.js]): the [AuthProvider]
      component: [initAuth], [login], [register], [logout],
      [refreshAccessToken] and the response interceptor it installs on the
      global [axios] instance.

    JavaScript here is single threaded: a piece of code runs until it awaits
    a network reply, and nothing else runs in between.  An [async] function
    is therefore embedded as a tree of effects ([Prog]): synchronous effects
    on [localStorage], on the React state and on [window.location], and
    [Await] nodes where the function is suspended until the HTTP adapter
    settles the request.  A [World] holds the shared state, the requests
    handed to the network so far and the suspended continuations; [deliver]
    resumes one of them with the server's reply.

    Left out, as nothing below depends on them: [console.error], the
    [baseURL] and [Content-Type] defaults of the [api] instance, and the
    provider's third effect, which copies the stored token into the default
    headers of the global instance when [isAuthenticated] changes (it only
    affects the headers of the requests to the auth endpoints). *)

From Stdlib Require Import ZArith.
From stdpp Require Import gmap strings list.

Open Scope string_scope.

(** ** Data *)

(** [{ id, email, name }] as stored by [setUser]. *)
Record User := mkUser {
  user_id : string;
  user_email : string;
  user_name : string
}.

(** The claims [jwt_decode] reads from an access token; [exp] is in seconds. *)
Record Claims := mkClaims {
  sub : string;
  claim_email : string;
  claim_name : string;
  exp : Z
}.

(** [response.data]: a JS object of which the code reads four fields, each of
    which may be missing ([undefined]). *)
Record Data := mkData {
  access_token : option string;
  refresh_token : option string;
  data_user : option User;
  data_error : option string
}.

(** Request bodies built by the code. *)
Inductive Body :=
| NoBody
| LoginBody (email password : string)
| RegisterBody (name email password : string)
| RefreshBody (refresh_token : string)
| RawBody (payload : string).

(** The axios request config.  [_retry] is the custom flag the 401 handlers
    put on it (axios keeps custom fields when a config is passed to it
    again); [headers] is a JS object used as a map. *)
Record Config := mkConfig {
  url : string;
  method : string;
  headers : gmap string string;
  body : Body;
  _retry : bool
}.

Record Response := mkResponse {
  status : Z;
  data : Data
}.

(** What a promise can be rejected with. *)
Inductive Exn :=
| AxiosErr (response : option Response) (config : Config)
    (* error.response, error.config *)
| Error (message : string)
    (* new Error(...), jwt-decode's InvalidTokenError *)
| StorageErr.
    (* the exception of a localStorage access when storage is unavailable *)

Inductive Settled (X : Type) : Type :=
| Fulfilled (x : X)
| Rejected (e : Exn).
Arguments Fulfilled {X} x.
Arguments Rejected {X} e.

(** The React state of [AuthProvider].  The code only ever stores values in
    it and never reads it back, so the setters are plain assignments. *)
Record Session := mkSession {
  user : option User;
  isAuthenticated : bool;
  loading : bool;
  error : option string
}.

(** [useState(null)], [useState(false)], [useState(true)], [useState(null)]. *)
Definition initial_session : Session :=
  {| user := None; isAuthenticated := false; loading := true; error := None |}.

(** The two axios instances: the default one and [axios.create(...)]. *)
Inductive Instance := Global | Api.

(** What an awaited top-level call resolves to. *)
Inductive Outcome :=
| OUndefined
| OBool (b : bool)
| OResponse (r : Response).

(** ** JavaScript coercions *)

(** [if (token)], [!refreshToken]: [null] and the empty string are falsy. *)
Definition truthy (v : option string) : bool :=
  match v with
  | Some s => negb (String.eqb s "")
  | None => false
  end.

(** String conversion of a possibly [undefined] field, as done by
    [localStorage.setItem] and by template literals. *)
Definition js_string (v : option string) : string :=
  match v with Some s => s | None => "undefined" end.

(** String conversion of what [localStorage.getItem] returns. *)
Definition js_string_null (v : option string) : string :=
  match v with Some s => s | None => "null" end.

Definition set_header (config : Config) (h v : string) : Config :=
  {| url := url config; method := method config;
     headers := <[h := v]> (headers config);
     body := body config; _retry := _retry config |}.

Definition set_retry (config : Config) : Config :=
  {| url := url config; method := method config;
     headers := headers config;
     body := body config; _retry := true |}.

(** [error.response?.status === 401] *)
Definition status_401 (r : option Response) : bool :=
  match r with
  | Some resp => (status resp =? 401)%Z
  | None => false
  end.

(** ** Programs *)

(** Synchronous effects. *)
Inductive Eff : Type -> Type :=
| EGetItem (key : string) : Eff (option string)
| ESetItem (key value : string) : Eff unit
| ERemoveItem (key : string) : Eff unit
| ESetHref (href : string) : Eff unit
| ESetUser (u : option User) : Eff unit
| ESetIsAuthenticated (b : bool) : Eff unit
| ESetLoading (b : bool) : Eff unit
| ESetError (e : option string) : Eff unit.

Inductive Prog (A : Type) : Type :=
| Ret (a : A)
| Throw (e : Exn)
| Do {X : Type} (eff : Eff X) (k : Settled X -> Prog A)
| Await (inst : Instance) (config : Config) (k : Settled Response -> Prog A)
    (* await inst(config) *)
| Go (p : Prog Outcome) (k : Prog A).
    (* p() called without await *)
Arguments Ret {A} a.
Arguments Throw {A} e.
Arguments Do {A X} eff k.
Arguments Await {A} inst config k.
Arguments Go {A} p k.

(** Run [m], then [k] on how it settled. *)
Fixpoint settle {A B : Type} (m : Prog A) (k : Settled A -> Prog B) : Prog B :=
  match m with
  | Ret a => k (Fulfilled a)
  | Throw e => k (Rejected e)
  | Do eff k' => Do eff (fun r => settle (k' r) k)
  | Await inst config k' => Await inst config (fun r => settle (k' r) k)
  | Go p k' => Go p (settle k' k)
  end.

Definition or_throw {A : Type} (r : Settled A) : Prog A :=
  match r with
  | Fulfilled a => Ret a
  | Rejected e => Throw e
  end.

Definition bind {A B : Type} (m : Prog A) (f : A -> Prog B) : Prog B :=
  settle m (fun r => match r with Fulfilled a => f a | Rejected e => Throw e end).

(** [try { m } catch (err) { h err }] *)
Definition try_catch {A : Type} (m : Prog A) (h : Exn -> Prog A) : Prog A :=
  settle m (fun r => match r with Fulfilled a => Ret a | Rejected e => h e end).

(** [try { m } finally { f }] *)
Definition try_finally {A : Type} (m : Prog A) (f : Prog unit) : Prog A :=
  settle m (fun r => bind f (fun _ => or_throw r)).

#[global] Instance Prog_ret : MRet Prog := @Ret.
#[global] Instance Prog_bind : MBind Prog := fun A B f m => bind m f.

Definition perform {X : Type} (eff : Eff X) : Prog X := Do eff or_throw.

Definition getItem (key : string) : Prog (option string) := perform (EGetItem key).
Definition setItem (key value : string) : Prog unit := perform (ESetItem key value).
Definition removeItem (key : string) : Prog unit := perform (ERemoveItem key).
Definition setHref (href : string) : Prog unit := perform (ESetHref href).
Definition setUser (u : option User) : Prog unit := perform (ESetUser u).
Definition setIsAuthenticated (b : bool) : Prog unit := perform (ESetIsAuthenticated b).
Definition setLoading (b : bool) : Prog unit := perform (ESetLoading b).
Definition setError (e : option string) : Prog unit := perform (ESetError e).

(** [p()] without [await]: [p] runs up to its first suspension, then the
    caller goes on. *)
Definition go {A : Type} (p : Prog A) : Prog unit :=
  Go (p ;; Ret OUndefined) (Ret tt).

(** [axios.post(url, body)] on the default instance. *)
Definition post_config (u : string) (b : Body) : Config :=
  {| url := u; method := "post"; headers := ∅; body := b; _retry := false |}.

Definition axios (config : Config) : Prog Response := Await Global config or_throw.
Definition axios_post (u : string) (b : Body) : Prog Response := axios (post_config u b).

(** ** services/api.js *)

(** [axios.create({ baseURL: '/api', headers: {'Content-Type': ...} })]: what
    the service modules pass to [api.get] and [api.post] is a config. *)

(** The request interceptor:
    [const token = localStorage.getItem('accessToken');
     if (token) config.headers['Authorization'] = `Bearer ${token}`;] *)
Definition attach_token (token : option string) (config : Config) : Config :=
  if truthy token
  then set_header config "Authorization" ("Bearer " +:+ js_string_null token)
  else config.

Definition api_request_interceptor (config : Config) : Prog Config :=
  token ← getItem "accessToken";
  mret (attach_token token config).

(** [api(config)]: request interceptor, then the adapter.  A rejection raised
    by the request interceptor skips the adapter and reaches the response
    handler without a response, which rejects it unchanged (its guard reads
    [error.response?.status]); it is thrown here directly. *)
Definition api (config : Config) : Prog Response :=
  config' ← api_request_interceptor config;
  Await Api config' or_throw.

(** The rejection handler of [api.interceptors.response].  The [try] block
    returns promises without awaiting them ([return Promise.reject(error)],
    [return api(originalRequest)]), so their rejection is not seen by the
    [catch]: the block yields the promise, which is run after it. *)
Definition api_response_rejected (error : Exn) : Prog Response :=
  match error with
  | AxiosErr response originalRequest =>
      if status_401 response && negb (_retry originalRequest) then
        let originalRequest := set_retry originalRequest in
        promise ← try_catch
          (refreshToken ← getItem "refreshToken";
           if negb (truthy refreshToken) then
             setHref "/login";;
             mret (Throw (AxiosErr response originalRequest))
           else
             response ← axios_post "/api/auth/refresh"
                          (RefreshBody (js_string_null refreshToken));
             let access_token := access_token (data response) in
             setItem "accessToken" (js_string access_token);;
             let originalRequest :=
               set_header originalRequest "Authorization"
                          ("Bearer " +:+ js_string access_token) in
             mret (api originalRequest))
          (fun refreshError =>
             removeItem "accessToken";;
             removeItem "refreshToken";;
             setHref "/login";;
             mret (Throw refreshError));
        promise
      else Throw error
  | _ => Throw error
  end.

(** ** contexts/AuthContext.js *)

(** [err.response?.data?.error || fallback] *)
Definition error_message (err : Exn) (fallback : string) : string :=
  match err with
  | AxiosErr (Some response) _ =>
      if truthy (data_error (data response))
      then js_string (data_error (data response))
      else fallback
  | _ => fallback
  end.

(** [logout]: the server call is best effort, the [finally] block always
    runs. *)
Definition logout : Prog unit :=
  try_finally
    (try_catch
       (axios_post "/api/auth/logout" NoBody;; mret tt)
       (fun err => mret tt))
    (removeItem "accessToken";;
     removeItem "refreshToken";;
     setUser None;;
     setIsAuthenticated false).

(** [register] *)
Definition register (name email password : string) : Prog bool :=
  try_finally
    (try_catch
       (setError None;;
        setLoading true;;
        axios_post "/api/auth/register" (RegisterBody name email password);;
        mret true)
       (fun err =>
          setError (Some (error_message err "Registration failed"));;
          mret false))
    (setLoading false).

(** [login] *)
Definition login (email password : string) : Prog bool :=
  try_finally
    (try_catch
       (setError None;;
        setLoading true;;
        response ← axios_post "/api/auth/login" (LoginBody email password);
        let access_token := access_token (data response) in
        let refresh_token := refresh_token (data response) in
        let user := data_user (data response) in
        setItem "accessToken" (js_string access_token);;
        setItem "refreshToken" (js_string refresh_token);;
        setUser user;;
        setIsAuthenticated true;;
        mret true)
       (fun err =>
          setError (Some (error_message err "Login failed"));;
          mret false))
    (setLoading false).

Section WithJwtDecode.

(** The [jwt-decode] library: the claims of a token, or [None] where it
    throws [InvalidTokenError]. *)
Variable jwt_decode : string -> option Claims.

Definition jwt_decode_or_throw (token : string) : Prog Claims :=
  match jwt_decode token with
  | Some decoded => mret decoded
  | None => Throw (Error "Invalid token specified")
  end.

Definition user_of_claims (decoded : Claims) : User :=
  {| user_id := sub decoded;
     user_email := claim_email decoded;
     user_name := claim_name decoded |}.

(** [refreshAccessToken]; [logout()] in the [catch] is not awaited. *)
Definition refreshAccessToken : Prog bool :=
  try_catch
    (refreshToken ← getItem "refreshToken";
     if negb (truthy refreshToken) then
       Throw (Error "No refresh token available")
     else
       response ← axios_post "/api/auth/refresh"
                    (RefreshBody (js_string_null refreshToken));
       let access_token := access_token (data response) in
       setItem "accessToken" (js_string access_token);;
       decoded ← jwt_decode_or_throw (js_string access_token);
       setUser (Some (user_of_claims decoded));;
       setIsAuthenticated true;;
       mret true)
    (fun err =>
       go logout;;
       mret false).

(** [initAuth], run once when the provider mounts; [now] is [Date.now()]
    in milliseconds, and [decoded.exp < Date.now() / 1000] is compared
    after multiplying both sides by 1000. *)
Definition initAuth (now : Z) : Prog unit :=
  try_finally
    (try_catch
       (accessToken ← getItem "accessToken";
        refreshToken ← getItem "refreshToken";
        if negb (truthy accessToken) || negb (truthy refreshToken) then
          setLoading false;;
          mret tt
        else
          decoded ← jwt_decode_or_throw (js_string_null accessToken);
          if (exp decoded * 1000 <? now)%Z then
            refreshAccessToken;;
            mret tt
          else
            setUser (Some (user_of_claims decoded));;
            setIsAuthenticated true)
       (fun err => go logout))
    (setLoading false).

(** The rejection handler [AuthProvider] registers with
    [axios.interceptors.response.use] on the default instance. *)
Definition auth_response_rejected (error : Exn) : Prog Response :=
  match error with
  | AxiosErr response originalRequest =>
      if status_401 response && negb (_retry originalRequest) then
        let originalRequest := set_retry originalRequest in
        promise ← try_catch
          (success ← refreshAccessToken;
           if success : bool then
             accessToken ← getItem "accessToken";
             let originalRequest :=
               set_header originalRequest "Authorization"
                          ("Bearer " +:+ js_string_null accessToken) in
             mret (Some (axios originalRequest))
           else mret None)
          (fun refreshError => mret (Some (Throw refreshError)));
        match promise with
        | Some p => p
        | None => Throw (AxiosErr response originalRequest)
        end
      else Throw error
  | _ => Throw error
  end.

End WithJwtDecode.

(** ** The world and its steps *)

(** Which rejection handler was registered on the instance when a request was
    issued (axios builds the handler chain when the request is made). *)
Inductive Hook := NoHook | ApiHook | AuthHook.

(** A request in flight and the code waiting for it. *)
Record Pending := mkPending {
  hook : Hook;
  owner : option nat;
  sent : Config;
  cont : Settled Response -> Prog Outcome
}.

(** [href] is [window.location.href]: assigning it starts a navigation, and
    the code goes on running on the old page until the new document loads;
    what happens after that load is not part of the model. *)
Record World := mkWorld {
  localStorage : option (gmap string string);  (* [None]: storage unavailable *)
  session : Session;
  href : string;                               (* window.location.href *)
  intercepted : bool;        (* AuthProvider's interceptor is on [axios] *)
  network : list (Instance * Config);          (* requests sent, newest first *)
  pending : gmap nat Pending;                  (* keyed by request number *)
  results : list (nat * Settled Outcome)       (* settled calls, newest first *)
}.

Definition with_storage (w : World) (m : gmap string string) : World :=
  {| localStorage := Some m; session := session w; href := href w;
     intercepted := intercepted w; network := network w;
     pending := pending w; results := results w |}.

Definition with_session (w : World) (s : Session) : World :=
  {| localStorage := localStorage w; session := s; href := href w;
     intercepted := intercepted w; network := network w;
     pending := pending w; results := results w |}.

Definition with_href (w : World) (h : string) : World :=
  {| localStorage := localStorage w; session := session w; href := h;
     intercepted := intercepted w; network := network w;
     pending := pending w; results := results w |}.

Definition with_intercepted (w : World) (b : bool) : World :=
  {| localStorage := localStorage w; session := session w; href := href w;
     intercepted := b; network := network w;
     pending := pending w; results := results w |}.

Definition with_pending (w : World) (p : gmap nat Pending) : World :=
  {| localStorage := localStorage w; session := session w; href := href w;
     intercepted := intercepted w; network := network w;
     pending := p; results := results w |}.

Definition set_user (s : Session) (u : option User) : Session :=
  {| user := u; isAuthenticated := isAuthenticated s;
     loading := loading s; error := error s |}.
Definition set_isAuthenticated (s : Session) (b : bool) : Session :=
  {| user := user s; isAuthenticated := b;
     loading := loading s; error := error s |}.
Definition set_loading (s : Session) (b : bool) : Session :=
  {| user := user s; isAuthenticated := isAuthenticated s;
     loading := b; error := error s |}.
Definition set_error (s : Session) (e : option string) : Session :=
  {| user := user s; isAuthenticated := isAuthenticated s;
     loading := loading s; error := e |}.

(** One synchronous effect.  Every [localStorage] access throws when storage
    is unavailable. *)
Definition step_eff {X : Type} (eff : Eff X) (w : World) : World * Settled X :=
  match eff in Eff X return World * Settled X with
  | EGetItem key =>
      match localStorage w with
      | Some m => (w, Fulfilled (m !! key))
      | None => (w, Rejected StorageErr)
      end
  | ESetItem key value =>
      match localStorage w with
      | Some m => (with_storage w (<[key := value]> m), Fulfilled tt)
      | None => (w, Rejected StorageErr)
      end
  | ERemoveItem key =>
      match localStorage w with
      | Some m => (with_storage w (delete key m), Fulfilled tt)
      | None => (w, Rejected StorageErr)
      end
  | ESetHref h => (with_href w h, Fulfilled tt)
  | ESetUser u => (with_session w (set_user (session w) u), Fulfilled tt)
  | ESetIsAuthenticated b =>
      (with_session w (set_isAuthenticated (session w) b), Fulfilled tt)
  | ESetLoading b => (with_session w (set_loading (session w) b), Fulfilled tt)
  | ESetError e => (with_session w (set_error (session w) e), Fulfilled tt)
  end.

Definition hook_of (inst : Instance) (w : World) : Hook :=
  match inst with
  | Api => ApiHook
  | Global => if intercepted w then AuthHook else NoHook
  end.

(** The request goes to the network; the caller is suspended.  Requests are
    numbered in the order they are sent. *)
Definition suspend (o : option nat) (inst : Instance) (config : Config)
    (k : Settled Response -> Prog Outcome) (w : World) : World :=
  {| localStorage := localStorage w; session := session w; href := href w;
     intercepted := intercepted w;
     network := (inst, config) :: network w;
     pending := <[length (network w) :=
                   {| hook := hook_of inst w; owner := o;
                      sent := config; cont := k |}]> (pending w);
     results := results w |}.

(** A top-level call settles: its result is recorded.  The result of a call
    nobody awaits is dropped. *)
Definition finish (o : option nat) (r : Settled Outcome) (w : World) : World :=
  match o with
  | Some t =>
      {| localStorage := localStorage w; session := session w; href := href w;
         intercepted := intercepted w; network := network w;
         pending := pending w; results := (t, r) :: results w |}
  | None => w
  end.

(** Run [p] until it settles or is suspended. *)
Fixpoint exec (o : option nat) (p : Prog Outcome) (w : World) : World :=
  match p with
  | Ret a => finish o (Fulfilled a) w
  | Throw e => finish o (Rejected e) w
  | Do eff k => exec o (k (step_eff eff w).2) (step_eff eff w).1
  | Await inst config k => suspend o inst config k w
  | Go p' k => exec o k (exec None p' w)
  end.

(** What the server (or the network) answers. *)
Inductive Reply :=
| HttpReply (r : Response)
| NetworkError.

(** axios' default [validateStatus]. *)
Definition validateStatus (st : Z) : bool := ((200 <=? st) && (st <? 300))%Z.

(** The adapter: a status accepted by [validateStatus] fulfils, anything else
    rejects with an error that carries the response and the request's
    config. *)
Definition settle_reply (config : Config) (reply : Reply) : Settled Response :=
  match reply with
  | HttpReply r =>
      if validateStatus (status r)
      then Fulfilled r
      else Rejected (AxiosErr (Some r) config)
  | NetworkError => Rejected (AxiosErr None config)
  end.

Section Scheduler.

Variable jwt_decode : string -> option Claims.

(** The code resumed when a request settles: the instance's response
    handlers first (the fulfilment handlers are the identity), then the
    awaiting caller. *)
Definition resume (pd : Pending) (r : Settled Response) : Prog Outcome :=
  match r with
  | Fulfilled resp => cont pd (Fulfilled resp)
  | Rejected e =>
      match hook pd with
      | NoHook => cont pd (Rejected e)
      | ApiHook => settle (api_response_rejected e) (cont pd)
      | AuthHook => settle (auth_response_rejected jwt_decode e) (cont pd)
      end
  end.

(** The reply to request number [id] arrives. *)
Definition deliver (id : nat) (reply : Reply) (w : World) : World :=
  match pending w !! id with
  | Some pd =>
      exec (owner pd) (resume pd (settle_reply (sent pd) reply))
           (with_pending w (delete id (pending w)))
  | None => w
  end.

(** A sequence of replies, in the order they arrive. *)
Definition deliver_all (evs : list (nat * Reply)) (w : World) : World :=
  foldl (fun w ev => deliver ev.1 ev.2 w) w evs.

End Scheduler.

(** No request in flight carries a number that is still to be given out. *)
Definition fresh (w : World) : Prop :=
  forall i, length (network w) <= i -> pending w !! i = None.

(** Top-level calls. *)
Definition call_response (t : nat) (p : Prog Response) (w : World) : World :=
  exec (Some t) (r ← p; mret (OResponse r)) w.
Definition call_bool (t : nat) (p : Prog bool) (w : World) : World :=
  exec (Some t) (b ← p; mret (OBool b)) w.
Definition call_unit (t : nat) (p : Prog unit) (w : World) : World :=
  exec (Some t) (p;; mret OUndefined) w.

(** ** Observations on the request log *)

(** [axios.post('/api/auth/refresh', { refresh_token: refreshToken })] *)
Definition refresh_config (refreshToken : string) : Config :=
  post_config "/api/auth/refresh" (RefreshBody refreshToken).

(** [axios.post('/api/auth/refresh', ...)] on the default instance. *)
Definition is_renewal (req : Instance * Config) : bool :=
  match req.1 with
  | Global => String.eqb (url req.2) "/api/auth/refresh"
  | Api => false
  end.

(** Number of renewal requests sent so far. *)
Definition renewals (w : World) : nat :=
  length (List.filter is_renewal (network w)).

(** A reply the adapter turns into a rejection. *)
Definition reply_fails (reply : Reply) : bool :=
  match reply with
  | HttpReply r => negb (validateStatus (status r))
  | NetworkError => true
  end.

Definition reply_401 (reply : Reply) : bool :=
  match reply with
  | HttpReply r => (status r =? 401)%Z
  | NetworkError => false
  end.

(** The rejection the adapter builds from a failing reply. *)
Definition rejection (config : Config) (reply : Reply) : Exn :=
  match reply with
  | HttpReply r => AxiosErr (Some r) config
  | NetworkError => AxiosErr None config
  end.

(** The caller of [api(config)] waiting for the adapter, as registered by
    [call_response]. *)
Definition awaiting_api (t : nat) (config : Config) : Pending :=
  {| hook := ApiHook; owner := Some t; sent := config;
     cont := fun r => r' ← or_throw r; mret (OResponse r') |}.

(** What [localStorage.getItem(key)] would return. *)
Definition stored (key : string) (w : World) : option string :=
  match localStorage w with
  | Some m => m !! key
  | None => None
  end.

(** [axios.post('/api/auth/login', { email, password })] *)
Definition login_config (email password : string) : Config :=
  post_config "/api/auth/login" (LoginBody email password).

(** [axios.post('/api/auth/logout')] *)
Definition logout_config : Config := post_config "/api/auth/logout" NoBody.

(** The continuation a suspended program was left with. *)
Definition await_cont (p : Prog Outcome) : Settled Response -> Prog Outcome :=
  match p with
  | Await _ _ k => k
  | _ => fun _ => p
  end.

(** [logout()] called without [await], suspended on its request; [i] tells
    whether the interceptor was installed when the request was made. *)
Definition awaiting_logout (i : bool) : Pending :=
  {| hook := if i then AuthHook else NoHook; owner := None;
     sent := logout_config;
     cont := await_cont (logout;; mret OUndefined) |}.

(** [pd] is the renewal request made for the call [t] of [api(c)]: only
    that call waits for it.  When it is granted the new token is stored and
    the call is replayed with it; when it is refused (and the refusal is not
    a 401 caught by the provider's interceptor, [i] telling whether that one
    was installed) both tokens are removed and the call is rejected. *)
Definition own_renewal (jwt_decode : string -> option Claims) (t : nat)
    (c : Config) (rt : string) (i : bool) (pd : Pending) : Prop :=
  owner pd = Some t /\
  sent pd = refresh_config rt /\
  (forall w m j r,
     localStorage w = Some m ->
     pending w !! j = Some pd ->
     validateStatus (status r) = true ->
     let tok := js_string (access_token (data r)) in
     let w' := deliver jwt_decode j (HttpReply r) w in
     localStorage w' = Some (<["accessToken" := tok]> m) /\
     network w' = (Api, set_header (set_retry c) "Authorization"
                           ("Bearer " +:+ tok)) :: network w /\
     results w' = results w) /\
  (forall w m j reply,
     localStorage w = Some m ->
     pending w !! j = Some pd ->
     reply_fails reply = true ->
     i && reply_401 reply = false ->
     let w' := deliver jwt_decode j reply w in
     localStorage w' = Some (delete "refreshToken" (delete "accessToken" m)) /\
     network w' = network w /\
     results w' = (t, Rejected (rejection (refresh_config rt) reply)) :: results w).

(** The calls of a batch, each answered with a 401-class reply. *)
Definition unauthorized (calls : list (nat * Response)) : list (nat * Reply) :=
  map (fun c => (c.1, HttpReply c.2)) calls.

(** The provider mounts: the state starts from the [useState] defaults, then
    the effects run in order: [initAuth()] up to its first suspension, then
    the registration of the response interceptor. *)
Definition mount (jwt_decode : string -> option Claims) (now : Z) (t : nat)
    (w : World) : World :=
  with_intercepted
    (call_unit t (initAuth jwt_decode now)
       (with_intercepted (with_session w initial_session) false))
    true.

(** ** services/*.js

    Every service function has the same shape:
    [try { const response = await api.<method>(...); return response.data; }
     catch (error) { console.error(...); throw error; }]. *)
Definition service (config : Config) : Prog Data :=
  try_catch
    (response ← api config;
     mret (data response))
    (fun error => Throw error).

(** [api.get(url)], [api.delete(url)], [api.post(url, data)] and
    [api.post(url, data, { headers })] as configs. *)
Definition get_config (u : string) : Config :=
  {| url := u; method := "get"; headers := ∅; body := NoBody; _retry := false |}.
Definition delete_config (u : string) : Config :=
  {| url := u; method := "delete"; headers := ∅; body := NoBody; _retry := false |}.
Definition post_with (u : string) (b : Body) (h : gmap string string) : Config :=
  {| url := u; method := "post"; headers := h; body := b; _retry := false |}.

(** strategyService *)
Definition getStrategies : Prog Data := service (get_config "/strategies").
Definition getStrategy (strategyId : string) : Prog Data :=
  service (get_config ("/strategies/" +:+ strategyId)).
Definition getStrategyParameters (strategyId : string) : Prog Data :=
  service (get_config ("/strategies/" +:+ strategyId +:+ "/parameters")).

(** stockListService; the [FormData] built by [uploadCustomList] is an
    opaque payload.  The request log holds each config as the interceptors
    hand it to the adapter; what the adapter itself does with the headers of
    a [FormData] request is outside the model. *)
Definition getStockLists : Prog Data := service (get_config "/stock-lists").
Definition getStockList (listId : string) : Prog Data :=
  service (get_config ("/stock-lists/" +:+ listId)).
Definition uploadCustomList_config (formData : string) : Config :=
  post_with "/stock-lists/custom" (RawBody formData)
            {["Content-Type" := "multipart/form-data"]}.
Definition uploadCustomList (formData : string) : Prog Data :=
  service (uploadCustomList_config formData).

(** monitoringService and backtestService *)
Definition scanForOpportunities (scanConfig : string) : Prog Data :=
  service (post_with "/monitoring/scan" (RawBody scanConfig) ∅).
Definition setupMonitoring (monitoringConfig : string) : Prog Data :=
  service (post_with "/monitoring/setup" (RawBody monitoringConfig) ∅).
Definition getMonitoringSetups : Prog Data := service (get_config "/monitoring").
Definition deleteMonitoring (monitoringId : string) : Prog Data :=
  service (delete_config ("/monitoring/" +:+ monitoringId)).
Definition getAlerts : Prog Data := service (get_config "/monitoring/alerts").
Definition runBacktest (backtestConfig : string) : Prog Data :=
  service (post_with "/backtest" (RawBody backtestConfig) ∅).
Definition getBacktestResults (backtestId : string) : Prog Data :=
  service (get_config ("/backtest/" +:+ backtestId)).
Definition getBacktestHistory : Prog Data := service (get_config "/backtest/history").

(** authService: the same calls as the provider's, but through [api]. *)
Module authService.
Definition register (name email password : string) : Prog Data :=
  service (post_with "/auth/register" (RegisterBody name email password) ∅).
Definition login (email password : string) : Prog Data :=
  service (post_with "/auth/login" (LoginBody email password) ∅).
Definition refreshToken (refreshToken : string) : Prog Data :=
  service (post_with "/auth/refresh" (RefreshBody refreshToken) ∅).
Definition logout : Prog Data :=
  service (post_with "/auth/logout" NoBody ∅).
End authService.

(** A top-level call of a service; [f] is what the caller makes of the
    result. *)
Definition call_with {A : Type} (f : A -> Outcome) (t : nat) (p : Prog A)
    (w : World) : World :=
  exec (Some t) (a ← p; mret (f a)) w.

(** ** contexts/ThemeContext.js *)

(** A program without suspension point, run to its end. *)
Fixpoint run_sync {A : Type} (p : Prog A) (w : World) : option (World * Settled A) :=
  match p with
  | Ret a => Some (w, Fulfilled a)
  | Throw e => Some (w, Rejected e)
  | Do eff k => run_sync (k (step_eff eff w).2) (step_eff eff w).1
  | Await _ _ _ => None
  | Go _ _ => None
  end.

(** The initial state of [mode]:
    [localStorage.getItem('themeMode') || 'light']. *)
Definition savedMode_or_light : Prog string :=
  savedMode ← getItem "themeMode";
  mret (if truthy savedMode then js_string_null savedMode else "light").

(** The effect run whenever [mode] changes:
    [localStorage.setItem('themeMode', mode)]. *)
Definition save_mode (mode : string) : Prog unit := setItem "themeMode" mode.

(** The updater of [toggleTheme]:
    [prevMode => (prevMode === 'light' ? 'dark' : 'light')]. *)
Definition toggleTheme (prevMode : string) : string :=
  if String.eqb prevMode "light" then "dark" else "light".

(** ** The route guards of App.js and AuthLayout.js *)

Inductive Element :=
| Children
| Navigate (to : string).

(** [ProtectedRoute]: [if (!isAuthenticated) return <Navigate to="/login" />] *)
Definition ProtectedRoute (s : Session) : Element :=
  if negb (isAuthenticated s) then Navigate "/login" else Children.

(** [AuthLayout]: [if (isAuthenticated) return <Navigate to="/" />] *)
Definition AuthLayout (s : Session) : Element :=
  if isAuthenticated s then Navigate "/" else Children.

(** ** What a program writes *)

(** A condition on synchronous effects. *)
Definition EffPred : Type := forall X : Type, Eff X -> Prop.

(** The effect leaves the entry [key] of [localStorage] alone. *)
Definition leaves (key : string) : EffPred :=
  fun X eff =>
    match eff with
    | ESetItem k _ => k <> key
    | ERemoveItem k => k <> key
    | _ => True
    end.

(** The effect stores nothing under [key]; it may remove the entry. *)
Definition never_sets (key : string) : EffPred :=
  fun X eff =>
    match eff with
    | ESetItem k _ => k <> key
    | _ => True
    end.

(** Every effect of every run of [p] satisfies [ok], and what [p] returns
    satisfies [post]. *)
Fixpoint keeps {A : Type} (ok : EffPred) (post : A -> Prop) (p : Prog A) : Prop :=
  match p with
  | Ret a => post a
  | Throw _ => True
  | Do eff k => ok _ eff /\ forall r, keeps ok post (k r)
  | Await _ _ k => forall r, keeps ok post (k r)
  | Go p' k => keeps ok (fun _ => True) p' /\ keeps ok post k
  end.

(** The same of every suspended continuation. *)
Definition conts_keep (ok : EffPred) (w : World) : Prop :=
  forall id pd r, pending w !! id = Some pd ->
    keeps ok (fun _ => True) (cont pd r).

(** What the user and the server can do, in any order. *)
Inductive Action :=
| DoMount (now : Z) (t : nat)
| DoLogin (t : nat) (email password : string)
| DoRegister (t : nat) (name email password : string)
| DoLogout (t : nat)
| DoApi (t : nat) (config : Config)
| DoReply (id : nat) (reply : Reply).

Definition act (jwt_decode : string -> option Claims) (a : Action) (w : World)
    : World :=
  match a with
  | DoMount now t => mount jwt_decode now t w
  | DoLogin t email password => call_bool t (login email password) w
  | DoRegister t name email password => call_bool t (register name email password) w
  | DoLogout t => call_unit t logout w
  | DoApi t config => call_response t (api config) w
  | DoReply id reply => deliver jwt_decode id reply w
  end.

Definition act_all (jwt_decode : string -> option Claims) (acts : list Action)
    (w : World) : World :=
  foldl (fun w a => act jwt_decode a w) w acts.

Definition is_login (a : Action) : bool :=
  match a with
  | DoLogin _ _ _ => true
  | _ => false
  end.

(** ** Sample data *)

Definition sample_jwt_decode (token : string) : option Claims :=
  if String.eqb token "T1" then Some (mkClaims "1" "a@b.com" "A" 1000)
  else if String.eqb token "T2" then Some (mkClaims "1" "a@b.com" "A" 5000)
  else None.

Definition sample_store (a r : option string) : gmap string string :=
  let m := match a with Some x => {["accessToken" := x]} | None => ∅ end in
  match r with Some x => <["refreshToken" := x]> m | None => m end.

Definition sample_user : User := mkUser "1" "a@b.com" "A".

Definition logged_in : Session :=
  {| user := Some sample_user; isAuthenticated := true;
     loading := false; error := None |}.

Definition logged_out : Session :=
  {| user := None; isAuthenticated := false; loading := false; error := None |}.

Definition sample_world (storage : option (gmap string string)) (s : Session)
    (i : bool) : World :=
  {| localStorage := storage; session := s; href := "/"; intercepted := i;
     network := []; pending := ∅; results := [] |}.

Definition sample_config : Config :=
  {| url := "/strategies"; method := "get"; headers := ∅;
     body := NoBody; _retry := false |}.

Definition reply_with (st : Z) (d : Data) : Reply :=
  HttpReply {| status := st; data := d |}.

Definition no_data : Data := mkData None None None None.
Definition token_data (t : string) : Data := mkData (Some t) None None None.
Definition error_data (msg : string) : Data := mkData None None None (Some msg).

(** The interceptor-free front end and the running application, both with the
    pair [(T1, R1)] stored and a signed-in user. *)
Definition pair_T1_R1 : gmap string string :=
  sample_store (Some "T1") (Some "R1").

Definition running_app : World :=
  sample_world (Some pair_T1_R1) logged_in true.

Definition pipeline_only : World :=
  sample_world (Some pair_T1_R1) logged_in false.

Definition expired : Response :=
  {| status := 401; data := error_data "Token has expired" |}.

Definition revoked : Response :=
  {| status := 400; data := error_data "Invalid refresh token" |}.

Definition renewed (token : string) : Response :=
  {| status := 200; data := token_data token |}.

Definition authorization (req : Instance * Config) : option string :=
  headers req.2 !! "Authorization".

(** A login reply with both tokens and the user, a reply without content,
    the running application with a theme preference stored, and a session of
    the user against the server. *)
Definition accepted : Response :=
  {| status := 200;
     data := mkData (Some "T1") (Some "R1") (Some sample_user) None |}.

Definition no_content : Reply := reply_with 204 no_data.

Definition themed_store : gmap string string :=
  <["themeMode" := "dark"]> (sample_store (Some "T1") (Some "R1")).

Definition themed_app : World :=
  sample_world (Some themed_store) logged_in true.

Definition sample_session : list Action :=
  [DoApi 1 sample_config;
   DoReply 0 (reply_with 401 (error_data "Token has expired"));
   DoReply 1 (reply_with 400 (error_data "Invalid refresh token"));
   DoLogin 2 "a@b.com" "x";
   DoReply 2 (HttpReply accepted);
   DoLogout 3;
   DoReply 3 no_content].

(** * Properties *)

Arguments truthy : simpl never.
Arguments attach_token : simpl never.
Arguments validateStatus : simpl never.

Lemma retry_attach_token token config :
  _retry (attach_token token config) = _retry config.
Proof. unfold attach_token. by destruct (truthy token). Qed.

Lemma truthy_Some s : s <> "" -> truthy (Some s) = true.
Proof. unfold truthy. intros H. by destruct (String.eqb_spec s ""). Qed.

Lemma validateStatus_401 : validateStatus 401 = false.
Proof. reflexivity. Qed.

Lemma set_header_twice config h v :
  set_header (set_header config h v) h v = set_header config h v.
Proof. unfold set_header. cbn. by rewrite insert_insert_eq. Qed.

(** The header the request interceptor leaves on the config. *)
Lemma attach_token_header token config :
  headers (attach_token token config) !! "Authorization" =
  if truthy token then Some ("Bearer " +:+ js_string_null token)
  else headers config !! "Authorization".
Proof.
  unfold attach_token. destruct (truthy token); [|done].
  cbn. apply lookup_insert_eq.
Qed.

Lemma attach_token_same tok config :
  attach_token (Some tok) (set_header config "Authorization" ("Bearer " +:+ tok))
  = set_header config "Authorization" ("Bearer " +:+ tok).
Proof.
  unfold attach_token. destruct (truthy (Some tok)); [|done].
  apply set_header_twice.
Qed.

Lemma delete_insert_fresh {A} (m : gmap nat A) i x :
  m !! i = None -> delete i (<[i := x]> m) = m.
Proof. intros H. by rewrite delete_insert_eq, delete_id. Qed.

Lemma fresh_empty s st h i : fresh (mkWorld st s h i [] ∅ []).
Proof. intros k _. apply lookup_empty. Qed.

(** Symbolic execution: unfold one more step of the world, using [tac] for
    the facts at hand. *)
Ltac sym tac :=
  repeat (progress (cbn; rewrite ?lookup_insert_eq, ?retry_attach_token,
                          ?validateStatus_401; tac)).

Ltac open_world w Hm Hf :=
  destruct w as [? ? ? ? net pend ?]; cbn in Hm; subst;
  unfold fresh in Hf; cbn in Hf.

Ltac close_pending pend Hf :=
  repeat rewrite (delete_insert_fresh pend) by (apply Hf; cbn; lia).

Ltac norm_world :=
  unfold suspend, finish, with_storage, with_session, with_href,
    with_pending, with_intercepted; cbn.

Section Properties.

Variable jwt_decode : string -> option Claims.

(** *** Request numbers

    Every world reached from one without requests in flight is [fresh]. *)

Lemma step_eff_network {X} (eff : Eff X) w :
  network (step_eff eff w).1 = network w /\
  pending (step_eff eff w).1 = pending w.
Proof. destruct eff; cbn; destruct (localStorage w); done. Qed.

Lemma exec_fresh (p : Prog Outcome) :
  forall o w, fresh w -> fresh (exec o p w).
Proof.
  revert p. fix exec_fresh 1.
  intros p o w Hf. destruct p as [a|e|X eff k|inst config k|p' k].
  - destruct o; exact Hf.
  - destruct o; exact Hf.
  - cbn. apply exec_fresh. intros i Hi.
    destruct (step_eff_network eff w) as [Hn Hp].
    rewrite Hp. apply Hf. by rewrite <- Hn.
  - intros i Hi. cbn in *.
    rewrite lookup_insert_ne by lia. apply Hf. lia.
  - cbn. apply exec_fresh. by apply exec_fresh.
Qed.

Lemma deliver_fresh id reply w : fresh w -> fresh (deliver jwt_decode id reply w).
Proof.
  intros Hf. unfold deliver. destruct (pending w !! id) as [pd|] eqn:Hp; [|done].
  apply exec_fresh. intros i Hi. cbn in *.
  destruct (decide (i = id)) as [->|Hne].
  - apply lookup_delete_eq.
  - rewrite lookup_delete_ne by done. by apply Hf.
Qed.

(** *** A 401 without a stored refresh token *)

(** C10.  A domain call that receives a 401 while the store holds no
    (non-empty) refresh token sends no renewal request: the only request on
    the network is the call itself, the page is sent to [/login], the store
    is left as it is and the caller gets the original 401 error (its config
    now flagged [_retry]). *)
Theorem C10_no_refresh_token_rejects (w : World) (m : gmap string string)
    (t : nat) (config : Config) (r : Response) :
  localStorage w = Some m ->
  truthy (m !! "refreshToken") = false ->
  _retry config = false ->
  status r = 401%Z ->
  fresh w ->
  let c := attach_token (m !! "accessToken") config in
  deliver jwt_decode (length (network w)) (HttpReply r)
    (call_response t (api config) w)
  = {| localStorage := Some m; session := session w; href := "/login";
       intercepted := intercepted w;
       network := (Api, c) :: network w;
       pending := pending w;
       results := (t, Rejected (AxiosErr (Some r) (set_retry c))) :: results w |}.
Proof.
  intros Hm Hrt Hre Hst Hf c. open_world w Hm Hf.
  unfold deliver. sym ltac:(rewrite ?Hst, ?Hre, ?Hrt).
  close_pending pend Hf. reflexivity.
Qed.

(** *** The [_retry] guard *)

(** The guard of [api] alone.  A domain call whose renewal is granted at its
    first reply and whose replay is answered with a 401 again: the call has
    sent exactly three requests (itself, one renewal, one replay), nothing of
    it is left in flight, and the caller gets the 401 error of the replay.
    (What a renewal answered with a 401 leads to is
    [api_renewal_401_renews_again].) *)
Lemma retry_guard_after_granted_renewal (w : World) (m : gmap string string)
    (rt : string)
    (t : nat) (config : Config) (r1 r2 r3 : Response) :
  localStorage w = Some m ->
  m !! "refreshToken" = Some rt -> rt <> "" ->
  _retry config = false ->
  status r1 = 401%Z ->
  validateStatus (status r2) = true ->
  status r3 = 401%Z ->
  fresh w ->
  let n := length (network w) in
  let c := attach_token (m !! "accessToken") config in
  let tok := js_string (access_token (data r2)) in
  let c' := set_header (set_retry c) "Authorization" ("Bearer " +:+ tok) in
  deliver jwt_decode (S (S n)) (HttpReply r3)
    (deliver jwt_decode (S n) (HttpReply r2)
       (deliver jwt_decode n (HttpReply r1) (call_response t (api config) w)))
  = {| localStorage := Some (<["accessToken" := tok]> m);
       session := session w; href := href w;
       intercepted := intercepted w;
       network := (Api, c') :: (Global, refresh_config rt) :: (Api, c) :: network w;
       pending := pending w;
       results := (t, Rejected (AxiosErr (Some r3) c')) :: results w |}.
Proof.
  intros Hm Hrt Hne Hre Hst1 Hst2 Hst3 Hf n c tok c'. open_world w Hm Hf.
  subst n. cbn [network].
  pose proof (truthy_Some _ Hne) as Htr.
  unfold deliver at 3. sym ltac:(rewrite ?Hst1, ?Hre, ?Hrt, ?Htr).
  unfold deliver at 2. sym ltac:(rewrite ?Hst2).
  unfold deliver at 1. sym ltac:(rewrite ?Hst3, ?attach_token_same).
  close_pending pend Hf. reflexivity.
Qed.

(** *** Concurrent calls *)

Lemma call_api w m t config :
  localStorage w = Some m ->
  call_response t (api config) w =
  {| localStorage := Some m; session := session w; href := href w;
     intercepted := intercepted w;
     network := (Api, attach_token (m !! "accessToken") config) :: network w;
     pending := <[length (network w) :=
                   awaiting_api t (attach_token (m !! "accessToken") config)]>
                  (pending w);
     results := results w |}.
Proof.
  intros Hm. destruct w; cbn in Hm; subst. reflexivity.
Qed.

Lemma deliver_api_401 w m rt id t c r :
  localStorage w = Some m ->
  m !! "refreshToken" = Some rt -> rt <> "" ->
  pending w !! id = Some (awaiting_api t c) ->
  _retry c = false ->
  status r = 401%Z ->
  exists pd, own_renewal jwt_decode t c rt (intercepted w) pd /\
    deliver jwt_decode id (HttpReply r) w =
    {| localStorage := Some m; session := session w; href := href w;
       intercepted := intercepted w;
       network := (Global, refresh_config rt) :: network w;
       pending := <[length (network w) := pd]> (delete id (pending w));
       results := results w |}.
Proof.
  intros Hm Hrt Hne Hp Hre Hst.
  destruct w as [? ? ? i net pend ?]; cbn in Hm, Hp; subst.
  pose proof (truthy_Some _ Hne) as Htr.
  eexists. split; cycle 1.
  - unfold deliver. cbn [pending]. rewrite Hp.
    sym ltac:(rewrite ?Hst, ?Hre, ?Hrt, ?Htr). reflexivity.
  - cbn [intercepted]. split; [reflexivity|]. split; [reflexivity|]. split.
    + intros w1 m1 j r2 Hm1 Hp1 Hv tok w2. subst w2 tok.
      destruct w1; cbn in Hm1, Hp1; subst.
      unfold deliver. cbn [pending]. rewrite Hp1.
      destruct i; sym ltac:(rewrite ?Hv, ?attach_token_same); done.
    + intros w1 m1 j reply Hm1 Hp1 Hfail Hint w2. subst w2.
      destruct w1; cbn in Hm1, Hp1; subst.
      unfold deliver. cbn [pending]. rewrite Hp1.
      destruct reply as [r2|]; cbn in Hfail, Hint.
      * apply negb_true_iff in Hfail.
        destruct i; cbn in Hint; sym ltac:(rewrite ?Hfail, ?Hint); done.
      * destruct i; sym idtac; done.
Qed.

Lemma replicate_app_cons {A} n (x : A) l :
  (replicate n x ++ x :: l = x :: replicate n x ++ l)%list.
Proof. induction n as [|n IH]; cbn; [done|]. by rewrite IH. Qed.

Lemma renewals_replicate n rt l :
  length (List.filter is_renewal (replicate n (Global, refresh_config rt) ++ l)%list)
  = n + length (List.filter is_renewal l).
Proof. induction n as [|n IH]; cbn; [done|]. by rewrite IH. Qed.

(** C1 (as the code has it).  There is no shared renewal: when the calls
    [calls] in flight through [api] are each answered with a 401 while a
    refresh token is stored, every one of them sends a renewal request of
    its own.  After the [N] replies the log has grown by exactly [N]
    renewal requests, no call has settled, and the [k]-th renewal request
    is awaited by the caller of the [k]-th answered call alone: that caller
    is replayed when this renewal is granted and rejected when it is
    refused, whatever happens to the others ([own_renewal]).  (A refusal
    with a 401 while the provider's interceptor is installed is left out.) *)
Theorem C1_each_call_renews (w : World) (m : gmap string string) (rt : string)
    (calls : list (nat * Response)) :
  localStorage w = Some m ->
  m !! "refreshToken" = Some rt -> rt <> "" ->
  NoDup calls.*1 ->
  (forall id r, (id, r) ∈ calls ->
     status r = 401%Z /\ id < length (network w) /\
     exists t c, pending w !! id = Some (awaiting_api t c) /\ _retry c = false) ->
  let w' := deliver_all jwt_decode (unauthorized calls) w in
  network w' = (replicate (length calls) (Global, refresh_config rt) ++ network w)%list /\
  renewals w' = length calls + renewals w /\
  results w' = results w /\
  localStorage w' = Some m /\
  (forall j, j < length (network w) -> j ∉ calls.*1 -> pending w' !! j = pending w !! j) /\
  (forall k id r, calls !! k = Some (id, r) ->
     exists pd t c,
       pending w !! id = Some (awaiting_api t c) /\
       pending w' !! (length (network w) + k) = Some pd /\
       own_renewal jwt_decode t c rt (intercepted w) pd).
Proof.
  intros Hm Hrt Hne Hnd Hcalls w'.
  assert (Hmain : network w' = (replicate (length calls) (Global, refresh_config rt) ++ network w)%list /\
    results w' = results w /\ localStorage w' = Some m /\
    (forall j, j < length (network w) -> j ∉ calls.*1 -> pending w' !! j = pending w !! j) /\
    (forall k id r, calls !! k = Some (id, r) ->
     exists pd t c,
       pending w !! id = Some (awaiting_api t c) /\
       pending w' !! (length (network w) + k) = Some pd /\
       own_renewal jwt_decode t c rt (intercepted w) pd)).
  2: { destruct Hmain as (Hn & ? & ? & ? & ?). repeat split; try done.
       unfold renewals. rewrite Hn. apply renewals_replicate. }
  subst w'. revert w Hm Hnd Hcalls.
  induction calls as [|[id r] calls IH]; intros w Hm Hnd Hcalls.
  - cbn. repeat split; done.
  - change (deliver_all jwt_decode (unauthorized ((id, r) :: calls)) w)
      with (deliver_all jwt_decode (unauthorized calls)
              (deliver jwt_decode id (HttpReply r) w)).
    apply NoDup_cons in Hnd as [Hid Hnd]. 
    destruct (Hcalls id r) as (Hst & Hlt & t & c & Hp & Hre); [left|].
    destruct (deliver_api_401 w m rt id t c r Hm Hrt Hne Hp Hre Hst)
      as (pd & Hown & Hw1).
    set (w1 := deliver jwt_decode id (HttpReply r) w) in *.
    assert (Hnet1 : network w1 = (Global, refresh_config rt) :: network w)
      by (rewrite Hw1; done).
    assert (Hpend1 : pending w1 = <[length (network w) := pd]> (delete id (pending w)))
      by (rewrite Hw1; done).
    assert (Hother : forall j, j < length (network w) -> j <> id ->
              pending w1 !! j = pending w !! j).
    { intros j Hj Hne'. rewrite Hpend1.
      rewrite lookup_insert_ne by lia. by rewrite lookup_delete_ne. }
    destruct (IH w1) as (Hn & Hres & Hls & Hkeep & Hnew).
    + rewrite Hw1; done.
    + done.
    + intros id' r' Hin.
      destruct (Hcalls id' r') as (Hst' & Hlt' & t' & c' & Hp' & Hre'); [by right|].
      split; [done|]. split; [rewrite Hnet1; cbn; lia|].
      exists t', c'. split; [|done]. rewrite Hother; [done|done|].
      intros ->. apply Hid. apply list_elem_of_fmap. by exists (id, r').
    + rewrite Hn, Hres, Hls, Hnet1. cbn [length].
      split; [by rewrite replicate_app_cons|].
      split; [by rewrite Hw1|]. split; [done|]. split.
      * intros j Hj Hnotin.
        apply not_elem_of_cons in Hnotin as [Hne' Hnotin].
        rewrite Hkeep; [by apply Hother| rewrite Hnet1; cbn; lia | done].
      * intros [|k] id' r' Hk; cbn in Hk.
        -- injection Hk as -> ->. exists pd, t, c.
           rewrite Nat.add_0_r, Hkeep.
           ++ by rewrite Hpend1, lookup_insert_eq.
           ++ rewrite Hnet1. cbn. lia.
           ++ intros Hin. apply list_elem_of_fmap in Hin as [[id2 r2] [Heq Hin]].
              destruct (Hcalls id2 r2) as (_ & Hlt' & _); [by right|]. cbn in Heq. lia.
        -- destruct (Hnew k id' r' Hk) as (pd' & t' & c' & Hp' & Hpd' & Ho').
           exists pd', t', c'. rewrite Hnet1 in Hpd'. cbn in Hpd'.
           replace (length (network w) + S k) with (S (length (network w) + k)) by lia.
           assert (Hi1 : intercepted w1 = intercepted w) by (rewrite Hw1; done).
           rewrite Hi1 in Ho'.
           split; [|done]. rewrite <- Hp'. symmetry. apply Hother.
           ++ destruct (Hcalls id' r') as (_ & Hlt' & _); [|done].
              right. by eapply list_elem_of_lookup_2.
           ++ intros ->. apply Hid. apply list_elem_of_fmap. exists (id, r').
              split; [done|]. by eapply list_elem_of_lookup_2.
Qed.


(** *** One call and its renewal *)

Lemma api_renewal_success w m rt t config r1 r2 :
  localStorage w = Some m ->
  m !! "refreshToken" = Some rt -> rt <> "" ->
  _retry config = false ->
  status r1 = 401%Z ->
  validateStatus (status r2) = true ->
  fresh w ->
  let n := length (network w) in
  let c := attach_token (m !! "accessToken") config in
  let tok := js_string (access_token (data r2)) in
  let c' := set_header (set_retry c) "Authorization" ("Bearer " +:+ tok) in
  exists pd, hook pd = ApiHook /\ owner pd = Some t /\ sent pd = c' /\
  deliver jwt_decode (S n) (HttpReply r2)
    (deliver jwt_decode n (HttpReply r1) (call_response t (api config) w))
  = {| localStorage := Some (<["accessToken" := tok]> m);
       session := session w; href := href w;
       intercepted := intercepted w;
       network := (Api, c') :: (Global, refresh_config rt) :: (Api, c) :: network w;
       pending := <[S (S n) := pd]> (pending w);
       results := results w |}.
Proof.
  intros Hm Hrt Hne Hre Hst1 Hst2 Hf n c tok c'. open_world w Hm Hf.
  subst n. cbn [network].
  pose proof (truthy_Some _ Hne) as Htr.
  eexists. split; [|split; [|split]]; cycle 3.
  - unfold deliver at 2. sym ltac:(rewrite ?Hst1, ?Hre, ?Hrt, ?Htr).
    unfold deliver at 1. sym ltac:(rewrite ?Hst2, ?attach_token_same).
    norm_world. close_pending pend Hf. reflexivity.
  - reflexivity.
  - reflexivity.
  - reflexivity.
Qed.

Lemma api_renewal_failure w m rt t config r1 reply :
  localStorage w = Some m ->
  m !! "refreshToken" = Some rt -> rt <> "" ->
  _retry config = false ->
  status r1 = 401%Z ->
  reply_fails reply = true ->
  intercepted w && reply_401 reply = false ->
  fresh w ->
  let n := length (network w) in
  let c := attach_token (m !! "accessToken") config in
  deliver jwt_decode (S n) reply
    (deliver jwt_decode n (HttpReply r1) (call_response t (api config) w))
  = {| localStorage := Some (delete "refreshToken" (delete "accessToken" m));
       session := session w; href := "/login";
       intercepted := intercepted w;
       network := (Global, refresh_config rt) :: (Api, c) :: network w;
       pending := pending w;
       results := (t, Rejected (rejection (refresh_config rt) reply)) :: results w |}.
Proof.
  intros Hm Hrt Hne Hre Hst1 Hfail Hint Hf n c. open_world w Hm Hf.
  subst n. cbn [network].
  pose proof (truthy_Some _ Hne) as Htr.
  unfold deliver at 2. sym ltac:(rewrite ?Hst1, ?Hre, ?Hrt, ?Htr).
  unfold deliver at 1. cbn in Hint.
  destruct reply as [r2|]; cbn in Hfail, Hint.
  - apply negb_true_iff in Hfail.
    destruct intercepted0; cbn in Hint;
      sym ltac:(rewrite ?Hfail, ?Hint); close_pending pend Hf; reflexivity.
  - destruct intercepted0; sym idtac; close_pending pend Hf; reflexivity.
Qed.

(** *** Who writes the store

    C3 (as the code has it).  The 401 handler of [api] writes the store
    itself: after a 401 and the reply to the renewal it made, the stored
    access token is the one the server returned (the refresh token is left
    as it was) when the renewal is granted, and both tokens are removed when
    it is refused.  The React session state is never changed by it.  (A
    renewal refused with a 401 while the provider's interceptor is installed
    is left out.) *)
Theorem C3_pipeline_writes_store (w : World) (m : gmap string string)
    (rt : string) (t : nat) (config : Config) (r1 : Response) (reply : Reply) :
  localStorage w = Some m ->
  m !! "refreshToken" = Some rt -> rt <> "" ->
  _retry config = false ->
  status r1 = 401%Z ->
  intercepted w && reply_401 reply = false ->
  fresh w ->
  let n := length (network w) in
  let w2 := deliver jwt_decode (S n) reply
              (deliver jwt_decode n (HttpReply r1)
                 (call_response t (api config) w)) in
  session w2 = session w /\
  localStorage w2 =
    match reply with
    | HttpReply r2 =>
        if validateStatus (status r2)
        then Some (<["accessToken" := js_string (access_token (data r2))]> m)
        else Some (delete "refreshToken" (delete "accessToken" m))
    | NetworkError => Some (delete "refreshToken" (delete "accessToken" m))
    end.
Proof.
  intros Hm Hrt Hne Hre Hst1 Hint Hf n w2. subst w2 n.
  destruct reply as [r2|].
  - destruct (validateStatus (status r2)) eqn:Hv.
    + destruct (api_renewal_success w m rt t config r1 r2)
        as (pd & _ & _ & _ & ->); done.
    + rewrite (api_renewal_failure w m rt t config r1 (HttpReply r2)); try done.
      cbn. by rewrite Hv.
  - rewrite (api_renewal_failure w m rt t config r1 NetworkError); done.
Qed.

(** *** [refreshAccessToken] *)

Lemma refresh_success w m rt t r decoded :
  localStorage w = Some m ->
  m !! "refreshToken" = Some rt -> rt <> "" ->
  validateStatus (status r) = true ->
  jwt_decode (js_string (access_token (data r))) = Some decoded ->
  fresh w ->
  deliver jwt_decode (length (network w)) (HttpReply r)
    (call_bool t (refreshAccessToken jwt_decode) w)
  = {| localStorage := Some (<["accessToken" := js_string (access_token (data r))]> m);
       session := {| user := Some (user_of_claims decoded);
                     isAuthenticated := true;
                     loading := loading (session w);
                     error := error (session w) |};
       href := href w; intercepted := intercepted w;
       network := (Global, refresh_config rt) :: network w;
       pending := pending w;
       results := (t, Fulfilled (OBool true)) :: results w |}.
Proof.
  intros Hm Hrt Hne Hv Hd Hf. open_world w Hm Hf.
  pose proof (truthy_Some _ Hne) as Htr.
  unfold deliver. sym ltac:(rewrite ?Hrt, ?Htr, ?Hv).
  unfold jwt_decode_or_throw. sym ltac:(rewrite ?Hd).
  close_pending pend Hf. reflexivity.
Qed.

Lemma refresh_failure w m rt t reply :
  localStorage w = Some m ->
  m !! "refreshToken" = Some rt -> rt <> "" ->
  reply_fails reply = true ->
  intercepted w && reply_401 reply = false ->
  fresh w ->
  deliver jwt_decode (length (network w)) reply
    (call_bool t (refreshAccessToken jwt_decode) w)
  = {| localStorage := Some m; session := session w; href := href w;
       intercepted := intercepted w;
       network := (Global, logout_config) :: (Global, refresh_config rt) :: network w;
       pending := <[S (length (network w)) := awaiting_logout (intercepted w)]> (pending w);
       results := (t, Fulfilled (OBool false)) :: results w |}.
Proof.
  intros Hm Hrt Hne Hfail Hint Hf. open_world w Hm Hf.
  pose proof (truthy_Some _ Hne) as Htr.
  unfold deliver.
  destruct reply as [r|]; cbn in Hfail, Hint.
  - apply negb_true_iff in Hfail.
    destruct intercepted0; cbn in Hint;
      sym ltac:(rewrite ?Hrt, ?Htr, ?Hfail, ?Hint);
      norm_world; close_pending pend Hf; reflexivity.
  - destruct intercepted0; sym ltac:(rewrite ?Hrt, ?Htr);
      norm_world; close_pending pend Hf; reflexivity.
Qed.

Lemma deliver_logout w m id i reply :
  localStorage w = Some m ->
  pending w !! id = Some (awaiting_logout i) ->
  i && reply_401 reply = false ->
  deliver jwt_decode id reply w
  = {| localStorage := Some (delete "refreshToken" (delete "accessToken" m));
       session := {| user := None; isAuthenticated := false;
                     loading := loading (session w);
                     error := error (session w) |};
       href := href w; intercepted := intercepted w;
       network := network w;
       pending := delete id (pending w);
       results := results w |}.
Proof.
  intros Hm Hp Hint. destruct w; cbn in Hm, Hp; subst.
  unfold deliver. cbn [pending]. rewrite Hp.
  destruct reply as [r|]; [destruct (validateStatus (status r)) eqn:Hv|];
    destruct i; cbn in Hint; sym ltac:(rewrite ?Hv, ?Hint); reflexivity.
Qed.


(** C4 (as the code has it).  A successful [refreshAccessToken] (the server
    accepts, the new token decodes) sends one request, stores the new access
    token, leaves the stored refresh token as it was, sets the user from the
    claims of the new token, sets [isAuthenticated], and returns [true]. *)
Theorem C4_refresh_replaces_access_token (w : World) (m : gmap string string)
    (rt : string) (t : nat) (r : Response) (decoded : Claims) :
  localStorage w = Some m ->
  m !! "refreshToken" = Some rt -> rt <> "" ->
  validateStatus (status r) = true ->
  jwt_decode (js_string (access_token (data r))) = Some decoded ->
  fresh w ->
  let tok := js_string (access_token (data r)) in
  let w1 := deliver jwt_decode (length (network w)) (HttpReply r)
              (call_bool t (refreshAccessToken jwt_decode) w) in
  w1 = {| localStorage := Some (<["accessToken" := tok]> m);
          session := {| user := Some (user_of_claims decoded);
                        isAuthenticated := true;
                        loading := loading (session w);
                        error := error (session w) |};
          href := href w; intercepted := intercepted w;
          network := (Global, refresh_config rt) :: network w;
          pending := pending w;
          results := (t, Fulfilled (OBool true)) :: results w |} /\
  stored "accessToken" w1 = Some tok /\
  stored "refreshToken" w1 = Some rt.
Proof.
  intros Hm Hrt Hne Hv Hd Hf tok w1. subst w1 tok.
  rewrite (refresh_success w m rt t r decoded) by done.
  split; [done|]. unfold stored. cbn.
  split; [apply lookup_insert_eq|]. by rewrite lookup_insert_ne.
Qed.

(** C5 (as the code has it).  A refused renewal, when the refusal is not a
    401 caught by the provider's interceptor:
    - [refreshAccessToken] sends one refresh request, calls [logout()]
      without awaiting it and returns [false]; at that moment the store and
      the session are unchanged;
    - when the [logout] request settles (with anything but a 401 caught by
      the provider's interceptor), both tokens are removed, the user is
      [null] and [isAuthenticated] is [false]; only these two requests were
      sent;
    - in the 401 handler of [api], the store is emptied at once, the page is
      sent to [/login], the caller gets the renewal's error, and the React
      session state is left as it was. *)
Theorem C5_refresh_failure (w : World) (m : gmap string string) (rt : string)
    (t : nat) (reply reply2 : Reply) :
  localStorage w = Some m ->
  m !! "refreshToken" = Some rt -> rt <> "" ->
  reply_fails reply = true ->
  intercepted w && reply_401 reply = false ->
  intercepted w && reply_401 reply2 = false ->
  fresh w ->
  let n := length (network w) in
  let w1 := deliver jwt_decode n reply
              (call_bool t (refreshAccessToken jwt_decode) w) in
  let w2 := deliver jwt_decode (S n) reply2 w1 in
  (results w1 = (t, Fulfilled (OBool false)) :: results w /\
   network w1 = (Global, logout_config) :: (Global, refresh_config rt) :: network w /\
   localStorage w1 = Some m /\ session w1 = session w) /\
  w2 = {| localStorage := Some (delete "refreshToken" (delete "accessToken" m));
          session := {| user := None; isAuthenticated := false;
                        loading := loading (session w);
                        error := error (session w) |};
          href := href w; intercepted := intercepted w;
          network := (Global, logout_config) :: (Global, refresh_config rt) :: network w;
          pending := pending w;
          results := (t, Fulfilled (OBool false)) :: results w |} /\
  (forall config r1, _retry config = false -> status r1 = 401%Z ->
     let w3 := deliver jwt_decode (S n) reply
                 (deliver jwt_decode n (HttpReply r1)
                    (call_response t (api config) w)) in
     stored "accessToken" w3 = None /\ stored "refreshToken" w3 = None /\
     href w3 = "/login" /\ session w3 = session w /\
     results w3 = (t, Rejected (rejection (refresh_config rt) reply)) :: results w /\
     network w3 = (Global, refresh_config rt)
                  :: (Api, attach_token (m !! "accessToken") config) :: network w).
Proof.
  intros Hm Hrt Hne Hfail Hint Hint2 Hf n w1 w2. subst w2 w1 n.
  rewrite (refresh_failure w m rt t reply) by done.
  split; [done|]. split.
  - rewrite (deliver_logout _ m _ (intercepted w) reply2); cbn; try done.
    + f_equal. apply delete_insert_fresh. apply Hf. lia.
    + apply lookup_insert_eq.
  - intros config r1 Hre Hst w3. subst w3.
    rewrite (api_renewal_failure w m rt t config r1 reply) by done.
    unfold stored. cbn.
    rewrite lookup_delete_ne, lookup_delete_eq, lookup_delete_eq by done.
    done.
Qed.

(** *** [initAuth] *)

Lemma mount_no_pair w m now t :
  localStorage w = Some m ->
  truthy (m !! "accessToken") && truthy (m !! "refreshToken") = false ->
  mount jwt_decode now t w
  = {| localStorage := Some m; session := logged_out; href := href w;
       intercepted := true; network := network w; pending := pending w;
       results := (t, Fulfilled OUndefined) :: results w |}.
Proof.
  intros Hm Hno. destruct w; cbn in Hm; subst. unfold mount.
  destruct (truthy (m !! "accessToken")) eqn:Ha;
    [destruct (truthy (m !! "refreshToken")) eqn:Hr; [done|]|];
    sym ltac:(rewrite ?Ha, ?Hr); reflexivity.
Qed.

Lemma mount_valid w m a rt d now t :
  localStorage w = Some m ->
  m !! "accessToken" = Some a -> a <> "" ->
  m !! "refreshToken" = Some rt -> rt <> "" ->
  jwt_decode a = Some d ->
  (exp d * 1000 <? now)%Z = false ->
  mount jwt_decode now t w
  = {| localStorage := Some m;
       session := {| user := Some (user_of_claims d); isAuthenticated := true;
                     loading := false; error := None |};
       href := href w; intercepted := true;
       network := network w; pending := pending w;
       results := (t, Fulfilled OUndefined) :: results w |}.
Proof.
  intros Hm Ha Hane Hrt Hne Hd Hexp. destruct w; cbn in Hm; subst. unfold mount.
  pose proof (truthy_Some _ Hne) as Htr. pose proof (truthy_Some _ Hane) as Hta.
  sym ltac:(rewrite ?Ha, ?Hrt, ?Htr, ?Hta).
  unfold jwt_decode_or_throw. sym ltac:(rewrite ?Hd, ?Hexp). reflexivity.
Qed.

Lemma mount_expired_success w m a rt d now t r d' :
  localStorage w = Some m ->
  m !! "accessToken" = Some a -> a <> "" ->
  m !! "refreshToken" = Some rt -> rt <> "" ->
  jwt_decode a = Some d ->
  (exp d * 1000 <? now)%Z = true ->
  validateStatus (status r) = true ->
  jwt_decode (js_string (access_token (data r))) = Some d' ->
  fresh w ->
  deliver jwt_decode (length (network w)) (HttpReply r) (mount jwt_decode now t w)
  = {| localStorage := Some (<["accessToken" := js_string (access_token (data r))]> m);
       session := {| user := Some (user_of_claims d'); isAuthenticated := true;
                     loading := false; error := None |};
       href := href w; intercepted := true;
       network := (Global, refresh_config rt) :: network w;
       pending := pending w;
       results := (t, Fulfilled OUndefined) :: results w |}.
Proof.
  intros Hm Ha Hane Hrt Hne Hd Hexp Hv Hd' Hf. open_world w Hm Hf. unfold mount.
  pose proof (truthy_Some _ Hne) as Htr. pose proof (truthy_Some _ Hane) as Hta.
  unfold deliver. sym ltac:(rewrite ?Ha, ?Hrt, ?Htr, ?Hta).
  unfold jwt_decode_or_throw. sym ltac:(rewrite ?Hd, ?Hexp).
  sym ltac:(rewrite ?Hrt, ?Htr, ?Hv, ?Hd').
  norm_world. close_pending pend Hf. reflexivity.
Qed.

Lemma mount_expired w m a rt d now t :
  localStorage w = Some m ->
  m !! "accessToken" = Some a -> a <> "" ->
  m !! "refreshToken" = Some rt -> rt <> "" ->
  jwt_decode a = Some d ->
  (exp d * 1000 <? now)%Z = true ->
  let w1 := mount jwt_decode now t w in
  localStorage w1 = Some m /\ session w1 = initial_session /\
  results w1 = results w /\
  network w1 = (Global, refresh_config rt) :: network w.
Proof.
  intros Hm Ha Hane Hrt Hne Hd Hexp. destruct w; cbn in Hm; subst. unfold mount.
  pose proof (truthy_Some _ Hne) as Htr. pose proof (truthy_Some _ Hane) as Hta.
  sym ltac:(rewrite ?Ha, ?Hrt, ?Htr, ?Hta).
  unfold jwt_decode_or_throw. sym ltac:(rewrite ?Hd, ?Hexp).
  sym ltac:(rewrite ?Hrt, ?Htr). done.
Qed.

Lemma mount_expired_failure w m a rt d now t reply :
  localStorage w = Some m ->
  m !! "accessToken" = Some a -> a <> "" ->
  m !! "refreshToken" = Some rt -> rt <> "" ->
  jwt_decode a = Some d ->
  (exp d * 1000 <? now)%Z = true ->
  reply_fails reply = true ->
  fresh w ->
  deliver jwt_decode (length (network w)) reply (mount jwt_decode now t w)
  = {| localStorage := Some m; session := logged_out;
       href := href w; intercepted := true;
       network := (Global, logout_config) :: (Global, refresh_config rt) :: network w;
       pending := <[S (length (network w)) := awaiting_logout true]> (pending w);
       results := (t, Fulfilled OUndefined) :: results w |}.
Proof.
  intros Hm Ha Hane Hrt Hne Hd Hexp Hfail Hf. open_world w Hm Hf. unfold mount.
  pose proof (truthy_Some _ Hne) as Htr. pose proof (truthy_Some _ Hane) as Hta.
  unfold deliver. sym ltac:(rewrite ?Ha, ?Hrt, ?Htr, ?Hta).
  unfold jwt_decode_or_throw. sym ltac:(rewrite ?Hd, ?Hexp).
  destruct reply as [r|]; cbn in Hfail.
  - apply negb_true_iff in Hfail.
    sym ltac:(rewrite ?Hrt, ?Htr, ?Hfail).
    norm_world. close_pending pend Hf. reflexivity.
  - sym ltac:(rewrite ?Hrt, ?Htr).
    norm_world. close_pending pend Hf. reflexivity.
Qed.

(** C6 (as the code has it).  When the provider mounts:
    - without a stored pair (either token missing or empty) the session is
      resolved at once: no user, not authenticated, [loading] off, no request;
    - with a pair whose access token decodes and has expired, exactly one
      renewal request is sent and the session stays unresolved until it
      settles.  If it is granted (and the new token decodes) the session is
      authenticated with the claims of the new token.  If it is refused the
      session is resolved as signed out while the store still holds the pair
      and a [logout] request is in flight; the store is emptied when that
      request settles (with anything but a 401);
    - with a pair whose access token has not expired the session is
      authenticated with the claims of the stored token, and no request is
      sent. *)
Theorem C6_initialize (w : World) (m : gmap string string) (now : Z) (t : nat) :
  localStorage w = Some m ->
  fresh w ->
  let n := length (network w) in
  let w1 := mount jwt_decode now t w in
  (truthy (m !! "accessToken") && truthy (m !! "refreshToken") = false ->
   w1 = {| localStorage := Some m; session := logged_out; href := href w;
           intercepted := true; network := network w; pending := pending w;
           results := (t, Fulfilled OUndefined) :: results w |}) /\
  (forall a rt d,
     m !! "accessToken" = Some a -> a <> "" ->
     m !! "refreshToken" = Some rt -> rt <> "" ->
     jwt_decode a = Some d ->
     if (exp d * 1000 <? now)%Z then
       (session w1 = initial_session /\ results w1 = results w /\
        network w1 = (Global, refresh_config rt) :: network w) /\
       (forall r d',
          validateStatus (status r) = true ->
          jwt_decode (js_string (access_token (data r))) = Some d' ->
          deliver jwt_decode n (HttpReply r) w1
          = {| localStorage :=
                 Some (<["accessToken" := js_string (access_token (data r))]> m);
               session := {| user := Some (user_of_claims d');
                             isAuthenticated := true;
                             loading := false; error := None |};
               href := href w; intercepted := true;
               network := (Global, refresh_config rt) :: network w;
               pending := pending w;
               results := (t, Fulfilled OUndefined) :: results w |}) /\
       (forall reply,
          reply_fails reply = true ->
          let w2 := deliver jwt_decode n reply w1 in
          (session w2 = logged_out /\
           results w2 = (t, Fulfilled OUndefined) :: results w /\
           network w2 = (Global, logout_config) :: (Global, refresh_config rt)
                        :: network w /\
           localStorage w2 = Some m) /\
          forall reply2,
            reply_401 reply2 = false ->
            deliver jwt_decode (S n) reply2 w2
            = {| localStorage :=
                   Some (delete "refreshToken" (delete "accessToken" m));
                 session := logged_out;
                 href := href w; intercepted := true;
                 network := (Global, logout_config) :: (Global, refresh_config rt)
                            :: network w;
                 pending := pending w;
                 results := (t, Fulfilled OUndefined) :: results w |})
     else
       w1 = {| localStorage := Some m;
               session := {| user := Some (user_of_claims d);
                             isAuthenticated := true;
                             loading := false; error := None |};
               href := href w; intercepted := true;
               network := network w; pending := pending w;
               results := (t, Fulfilled OUndefined) :: results w |}).
Proof.
  intros Hm Hf n w1. subst n w1. split.
  - intros Hno. by apply mount_no_pair.
  - intros a rt d Ha Hane Hrt Hne Hd.
    destruct (exp d * 1000 <? now)%Z eqn:Hexp.
    + split; [|split].
      * destruct (mount_expired w m a rt d now t) as (_ & ? & ? & ?); done.
      * intros r d' Hv Hd'. by eapply mount_expired_success.
      * intros reply Hfail w2. subst w2.
        rewrite (mount_expired_failure w m a rt d now t reply) by done.
        split; [done|]. intros reply2 H401.
        rewrite (deliver_logout _ m _ true reply2); cbn; try done.
        -- f_equal. apply delete_insert_fresh. apply Hf. lia.
        -- apply lookup_insert_eq.
    + by eapply mount_valid.
Qed.

(** *** Login *)

(** A failed login whose rejection the interceptor leaves alone: one request,
    the message recorded, [false] returned, and nothing else changed. *)
Lemma login_failure w t email password reply :
  reply_fails reply = true ->
  intercepted w && reply_401 reply = false ->
  fresh w ->
  deliver jwt_decode (length (network w)) reply
    (call_bool t (login email password) w)
  = {| localStorage := localStorage w;
       session := {| user := user (session w);
                     isAuthenticated := isAuthenticated (session w);
                     loading := false;
                     error := Some (error_message
                                      (rejection (login_config email password) reply)
                                      "Login failed") |};
       href := href w; intercepted := intercepted w;
       network := (Global, login_config email password) :: network w;
       pending := pending w;
       results := (t, Fulfilled (OBool false)) :: results w |}.
Proof.
  intros Hfail Hint Hf. destruct w as [? ? ? i net pend ?].
  unfold fresh in Hf. cbn in Hf, Hint. unfold deliver.
  destruct reply as [r|]; cbn in Hfail, Hint.
  - apply negb_true_iff in Hfail.
    destruct i; cbn in Hint; sym ltac:(rewrite ?Hfail, ?Hint);
      norm_world; close_pending pend Hf; reflexivity.
  - destruct i; sym idtac; norm_world; close_pending pend Hf; reflexivity.
Qed.

(** *** A 401 from an auth endpoint

    The provider's handler is registered on the default instance, which
    [login], [logout] and [refreshAccessToken] use themselves: a 401 answer
    to one of their own requests is handled like an expired token. *)

(** A login refused with a 401 while a refresh token is stored: the handler
    renews the token, and once the renewal is granted the stored access token
    and the user are replaced and the login request is sent again, before
    [login] has returned. *)
Lemma login_401_renews_and_retries w m rt t email password r r2 d :
  localStorage w = Some m ->
  m !! "refreshToken" = Some rt -> rt <> "" ->
  intercepted w = true ->
  status r = 401%Z ->
  validateStatus (status r2) = true ->
  jwt_decode (js_string (access_token (data r2))) = Some d ->
  fresh w ->
  let n := length (network w) in
  let tok := js_string (access_token (data r2)) in
  let w2 := deliver jwt_decode (S n) (HttpReply r2)
              (deliver jwt_decode n (HttpReply r)
                 (call_bool t (login email password) w)) in
  localStorage w2 = Some (<["accessToken" := tok]> m) /\
  user (session w2) = Some (user_of_claims d) /\
  results w2 = results w /\
  network w2 =
    (Global, set_header (set_retry (login_config email password))
               "Authorization" ("Bearer " +:+ tok))
    :: (Global, refresh_config rt)
    :: (Global, login_config email password) :: network w.
Proof.
  intros Hm Hrt Hne Hi Hst Hv Hd Hf n tok w2. subst w2 tok n.
  open_world w Hm Hf. cbn in Hi. subst.
  pose proof (truthy_Some _ Hne) as Htr.
  unfold deliver.
  sym ltac:(unfold jwt_decode_or_throw; rewrite ?Hst, ?Hrt, ?Htr, ?Hv, ?Hd).
  done.
Qed.

(** A renewal refused with a 401: the handler starts another renewal, and
    [refreshAccessToken] has not returned. *)
Lemma refresh_401_renews_again w m rt t r :
  localStorage w = Some m ->
  m !! "refreshToken" = Some rt -> rt <> "" ->
  intercepted w = true ->
  status r = 401%Z ->
  fresh w ->
  let w1 := deliver jwt_decode (length (network w)) (HttpReply r)
              (call_bool t (refreshAccessToken jwt_decode) w) in
  network w1 = (Global, refresh_config rt) :: (Global, refresh_config rt)
               :: network w /\
  results w1 = results w /\
  localStorage w1 = Some m.
Proof.
  intros Hm Hrt Hne Hi Hst Hf w1. subst w1.
  open_world w Hm Hf. cbn in Hi. subst.
  pose proof (truthy_Some _ Hne) as Htr.
  unfold deliver. sym ltac:(rewrite ?Hst, ?Hrt, ?Htr). done.
Qed.

(** A renewal made by the 401 handler of [api] and answered with a 401: the
    provider's handler takes it for an expired token and starts a renewal of
    its own, the call is neither replayed nor rejected, and the store is left
    as it is. *)
Lemma api_renewal_401_renews_again w m rt t config r1 r2 :
  localStorage w = Some m ->
  m !! "refreshToken" = Some rt -> rt <> "" ->
  intercepted w = true ->
  _retry config = false ->
  status r1 = 401%Z ->
  status r2 = 401%Z ->
  fresh w ->
  let n := length (network w) in
  let w2 := deliver jwt_decode (S n) (HttpReply r2)
              (deliver jwt_decode n (HttpReply r1)
                 (call_response t (api config) w)) in
  network w2 = (Global, refresh_config rt) :: (Global, refresh_config rt)
               :: (Api, attach_token (m !! "accessToken") config) :: network w /\
  results w2 = results w /\
  localStorage w2 = Some m.
Proof.
  intros Hm Hrt Hne Hi Hre Hst1 Hst2 Hf n w2. subst w2 n.
  open_world w Hm Hf. cbn in Hi. subst.
  pose proof (truthy_Some _ Hne) as Htr.
  unfold deliver. sym ltac:(rewrite ?Hst1, ?Hst2, ?Hre, ?Hrt, ?Htr). done.
Qed.

(** *** The token on the request *)

(** C8 (as the code has it).  The request interceptor of [api] looks at the
    store, not at the session: the first send of a call carries
    [Bearer <token>] exactly when the store holds a non-empty access token at
    that moment (otherwise its headers are left as the caller gave them).
    The replay after a granted renewal always carries [Bearer <token>] with
    the access token of the renewal's reply, which is the one that has just
    been stored: the 401 handler sets the header itself, also when that token
    is empty. *)
Theorem C8_token_read_from_store (w : World) (m : gmap string string)
    (t : nat) (config : Config) :
  localStorage w = Some m ->
  fresh w ->
  let n := length (network w) in
  let w1 := call_response t (api config) w in
  (exists c, network w1 = (Api, c) :: network w /\
     headers c !! "Authorization" =
       if truthy (m !! "accessToken")
       then Some ("Bearer " +:+ js_string_null (m !! "accessToken"))
       else headers config !! "Authorization") /\
  (forall rt r1 r2,
     m !! "refreshToken" = Some rt -> rt <> "" ->
     _retry config = false ->
     status r1 = 401%Z ->
     validateStatus (status r2) = true ->
     let w2 := deliver jwt_decode (S n) (HttpReply r2)
                 (deliver jwt_decode n (HttpReply r1) w1) in
     let tok := js_string (access_token (data r2)) in
     exists c' rest, network w2 = (Api, c') :: rest /\
       stored "accessToken" w2 = Some tok /\
       headers c' !! "Authorization" = Some ("Bearer " +:+ tok) /\
       _retry c' = true).
Proof.
  intros Hm Hf n w1. subst n w1. split.
  - rewrite (call_api w m) by done. eexists. split; [reflexivity|].
    apply attach_token_header.
  - intros rt r1 r2 Hrt Hne Hre Hst Hv w2 tok. subst w2 tok.
    destruct (api_renewal_success w m rt t config r1 r2)
      as (pd & _ & _ & _ & ->); try done.
    eexists _, _. split; [reflexivity|]. unfold stored. cbn.
    rewrite !lookup_insert_eq. done.
Qed.

(** *** Storage unavailable *)

(** C9 (as the code has it).  With [localStorage] unavailable every access
    to it throws, and nothing falls back to memory:
    - a login the server accepts is reported as failed with the message
      ['Login failed'], and the user and [isAuthenticated] are left as they
      were;
    - a call through [api] is rejected with the storage exception before any
      request is sent;
    - on mount the session is resolved as signed out and a [logout] request
      is sent. *)
Theorem C9_storage_unavailable (w : World) (t : nat) :
  localStorage w = None ->
  fresh w ->
  (forall email password r,
     validateStatus (status r) = true ->
     deliver jwt_decode (length (network w)) (HttpReply r)
       (call_bool t (login email password) w)
     = {| localStorage := None;
          session := {| user := user (session w);
                        isAuthenticated := isAuthenticated (session w);
                        loading := false;
                        error := Some "Login failed" |};
          href := href w; intercepted := intercepted w;
          network := (Global, login_config email password) :: network w;
          pending := pending w;
          results := (t, Fulfilled (OBool false)) :: results w |}) /\
  (forall config,
     call_response t (api config) w
     = {| localStorage := None; session := session w; href := href w;
          intercepted := intercepted w; network := network w;
          pending := pending w;
          results := (t, Rejected StorageErr) :: results w |}) /\
  (forall now,
     let w1 := mount jwt_decode now t w in
     session w1 = logged_out /\
     results w1 = (t, Fulfilled OUndefined) :: results w /\
     network w1 = (Global, logout_config) :: network w).
Proof.
  intros Hm Hf. destruct w as [? ? ? i net pend ?]. cbn in Hm. subst.
  unfold fresh in Hf. cbn in Hf. split; [|split].
  - intros email password r Hv. unfold deliver.
    destruct i; sym ltac:(rewrite ?Hv); norm_world; close_pending pend Hf;
      reflexivity.
  - intros config. reflexivity.
  - intros now. unfold mount. cbn. done.
Qed.

End Properties.

(** * Beyond the token handling *)

(** ** What is never written *)

Section Frame.

Variable jwt_decode : string -> option Claims.
Variable ok : EffPred.

Lemma keeps_settle {A B} (P : A -> Prop) (Q : B -> Prop) (m : Prog A)
    (k : Settled A -> Prog B) :
  keeps ok P m ->
  (forall a, P a -> keeps ok Q (k (Fulfilled a))) ->
  (forall e, keeps ok Q (k (Rejected e))) ->
  keeps ok Q (settle m k).
Proof.
  revert A B P Q m k. fix IH 5.
  intros A B P Q m k Hm Hf Hr.
  destruct m as [a|e|X eff k'|inst config k'|p' k']; cbn in *.
  - by apply Hf.
  - apply Hr.
  - destruct Hm as [He Hk]. split; [done|]. intros r.
    eapply IH; [apply Hk|exact Hf|exact Hr].
  - intros r. eapply IH; [apply Hm|exact Hf|exact Hr].
  - destruct Hm as [Hp Hk]. split; [done|].
    eapply IH; [exact Hk|exact Hf|exact Hr].
Qed.

(** A property of the store that the allowed effects preserve. *)
Variable P : option (gmap string string) -> Prop.
Hypothesis step_ok :
  forall X (eff : Eff X) w,
    ok X eff -> P (localStorage w) -> P (localStorage (step_eff eff w).1).

Hypothesis keeps_api_response_rejected :
  forall e, keeps ok (fun _ => True) (api_response_rejected e).
Hypothesis keeps_auth_response_rejected :
  forall e, keeps ok (fun _ => True) (auth_response_rejected jwt_decode e).

Lemma exec_keeps (p : Prog Outcome) :
  forall o w,
    keeps ok (fun _ => True) p -> conts_keep ok w -> P (localStorage w) ->
    P (localStorage (exec o p w)) /\ conts_keep ok (exec o p w).
Proof.
  revert p. fix IH 1.
  intros p o w Hp Hw HP. destruct p as [a|e|X eff k|inst config k|p' k]; cbn in *.
  - by destruct o.
  - by destruct o.
  - destruct Hp as [He Hk].
    apply IH; [apply Hk| |by apply step_ok].
    intros id pd r Hpd. eapply Hw.
    by rewrite <- (proj2 (step_eff_network eff w)).
  - split; [done|]. intros id pd r Hpd. cbn in Hpd.
    destruct (decide (id = length (network w))) as [->|Hne].
    + rewrite lookup_insert_eq in Hpd. injection Hpd as <-. apply Hp.
    + rewrite lookup_insert_ne in Hpd by done. by eapply Hw.
  - destruct Hp as [Hp' Hk].
    destruct (IH p' None w Hp' Hw HP) as [Hs1 Hc1].
    by apply IH.
Qed.

Lemma deliver_keeps id reply w :
  conts_keep ok w -> P (localStorage w) ->
  P (localStorage (deliver jwt_decode id reply w)) /\
  conts_keep ok (deliver jwt_decode id reply w).
Proof.
  intros Hw HP. unfold deliver.
  destruct (pending w !! id) as [pd|] eqn:Hpd; [|done].
  apply (exec_keeps _ (owner pd) (with_pending w (delete id (pending w)))).
  - unfold resume. destruct (settle_reply (sent pd) reply) as [resp|e].
    + by eapply Hw.
    + destruct (hook pd).
      * by eapply Hw.
      * eapply keeps_settle; [apply keeps_api_response_rejected| |];
          intros; by eapply Hw.
      * eapply keeps_settle; [apply keeps_auth_response_rejected| |];
          intros; by eapply Hw.
  - intros id' pd' r Hpd'. cbn in Hpd'.
    apply lookup_delete_Some in Hpd' as [_ Hpd']. by eapply Hw.
  - done.
Qed.

Lemma call_keeps {A} (p : Prog A) (f : A -> Outcome) o w :
  keeps ok (fun _ => True) p -> conts_keep ok w -> P (localStorage w) ->
  P (localStorage (exec o (a ← p; mret (f a)) w)) /\
  conts_keep ok (exec o (a ← p; mret (f a)) w).
Proof.
  intros Hp Hw HP. apply exec_keeps; [|done|done].
  eapply keeps_settle; [exact Hp| |]; done.
Qed.

End Frame.

Ltac keeps_step jwt_decode :=
  match goal with
  | |- True => exact I
  | |- _ /\ _ => split
  | |- _ <> _ => congruence
  | |- forall r : Settled _, _ => intros [?|?]
  | |- forall _, _ => intro
  | |- context [if ?b then _ else _] => destruct b
  | |- context [match jwt_decode ?t with _ => _ end] => destruct (jwt_decode t)
  end.

Ltac keeps_auto jwt_decode :=
  repeat (cbn; unfold jwt_decode_or_throw; keeps_step jwt_decode).

Section More.

Variable jwt_decode : string -> option Claims.

Lemma act_leaves key st0 a w :
  key <> "accessToken" -> key <> "refreshToken" ->
  conts_keep (leaves key) w ->
  (fun m : gmap string string => m !! key) <$> localStorage w = st0 ->
  (fun m : gmap string string => m !! key) <$> localStorage (act jwt_decode a w)
  = st0 /\
  conts_keep (leaves key) (act jwt_decode a w).
Proof.
  intros Ha Hr Hw HP0.
  set (P := fun st : option (gmap string string) =>
              (fun m : gmap string string => m !! key) <$> st = st0).
  assert (Hstep : forall X (eff : Eff X) w',
            leaves key X eff -> P (localStorage w') ->
            P (localStorage (step_eff eff w').1)).
  { unfold P. intros X eff [[m|] ? ? ? ? ? ?]; destruct eff; cbn; intros Hk;
      try done.
    - by rewrite lookup_insert_ne.
    - by rewrite lookup_delete_ne. }
  assert (Hapi : forall e, keeps (leaves key) (fun _ => True) (api_response_rejected e))
    by (intros [resp c| |]; keeps_auto jwt_decode).
  assert (Hauth : forall e, keeps (leaves key) (fun _ => True)
                              (auth_response_rejected jwt_decode e))
    by (intros [resp c| |]; keeps_auto jwt_decode).
  assert (HP : P (localStorage w)) by done.
  destruct a; cbn [act].
  - unfold mount.
    destruct (call_keeps (leaves key) P Hstep
                (initAuth jwt_decode now) (fun _ => OUndefined) (Some t)
                (with_intercepted (with_session w initial_session) false))
      as [Hs Hc]; [keeps_auto jwt_decode|exact Hw|exact HP|]. done.
  - apply (call_keeps (leaves key) P Hstep _ OBool);
      [keeps_auto jwt_decode|done|done].
  - apply (call_keeps (leaves key) P Hstep _ OBool);
      [keeps_auto jwt_decode|done|done].
  - apply (call_keeps (leaves key) P Hstep _ (fun _ => OUndefined));
      [keeps_auto jwt_decode|done|done].
  - apply (call_keeps (leaves key) P Hstep _ OResponse);
      [keeps_auto jwt_decode|done|done].
  - by apply (deliver_keeps jwt_decode (leaves key) P Hstep Hapi Hauth).
Qed.

Lemma act_all_leaves key acts w :
  key <> "accessToken" -> key <> "refreshToken" ->
  conts_keep (leaves key) w ->
  (fun m : gmap string string => m !! key) <$> localStorage (act_all jwt_decode acts w)
  = (fun m : gmap string string => m !! key) <$> localStorage w.
Proof.
  intros Ha Hr Hw.
  set (st0 := (fun m : gmap string string => m !! key) <$> localStorage w).
  cut ((fun m : gmap string string => m !! key)
         <$> localStorage (act_all jwt_decode acts w) = st0 /\
       conts_keep (leaves key) (act_all jwt_decode acts w)); [by intros []|].
  assert (H0 : (fun m : gmap string string => m !! key) <$> localStorage w = st0)
    by done.
  clearbody st0. revert w Hw H0.
  induction acts as [|a acts IH]; intros w Hw H0; [done|].
  destruct (act_leaves key st0 a w Ha Hr Hw H0) as [Hs Hc].
  change (act_all jwt_decode (a :: acts) w)
    with (act_all jwt_decode acts (act jwt_decode a w)).
  by apply IH.
Qed.

(** X1.  Whatever the user does (mounting the provider, logging in,
    registering, logging out, calling the API) and whatever the server
    answers, in any order, the code never writes an entry of [localStorage]
    other than ['accessToken'] and ['refreshToken']. *)
Theorem other_entries_untouched (key : string) (acts : list Action) (w : World) :
  key <> "accessToken" ->
  key <> "refreshToken" ->
  conts_keep (leaves key) w ->
  stored key (act_all jwt_decode acts w) = stored key w.
Proof.
  intros Ha Hr Hw. pose proof (act_all_leaves key acts w Ha Hr Hw) as H.
  unfold stored. destruct (localStorage (act_all jwt_decode acts w)),
    (localStorage w); cbn in H; congruence.
Qed.

(** X21.  The theme preference survives the session: the mode the theme
    provider would start from is the same before and after any sequence of
    logins, logouts, registrations, API calls, mounts and server replies. *)
Theorem theme_survives_session (acts : list Action) (w : World) (mode : string) :
  conts_keep (leaves "themeMode") w ->
  run_sync savedMode_or_light w = Some (w, Fulfilled mode) ->
  let w' := act_all jwt_decode acts w in
  run_sync savedMode_or_light w' = Some (w', Fulfilled mode).
Proof.
  intros Hw Hmode w'.
  pose proof (act_all_leaves "themeMode" acts w ltac:(done) ltac:(done) Hw) as H.
  fold w' in H. revert Hmode H. unfold run_sync, savedMode_or_light. cbn.
  destruct (localStorage w) as [m|], (localStorage w') as [m'|]; cbn;
    try done.
  intros Hmode H. injection H as H. rewrite H. congruence.
Qed.

Lemma act_never_sets_refresh v0 a w :
  is_login a = false ->
  conts_keep (never_sets "refreshToken") w ->
  (stored "refreshToken" w = v0 \/ stored "refreshToken" w = None) ->
  (stored "refreshToken" (act jwt_decode a w) = v0 \/
   stored "refreshToken" (act jwt_decode a w) = None) /\
  conts_keep (never_sets "refreshToken") (act jwt_decode a w).
Proof.
  intros Hl Hw H0.
  set (ok := never_sets "refreshToken").
  set (P := fun st : option (gmap string string) =>
              match st with Some m => m !! "refreshToken" | None => None end = v0 \/
              match st with Some m => m !! "refreshToken" | None => None end = None).
  assert (Hstep : forall X (eff : Eff X) w',
            ok X eff -> P (localStorage w') ->
            P (localStorage (step_eff eff w').1)).
  { unfold P, ok. intros X eff [[m|] ? ? ? ? ? ?]; destruct eff; cbn; intros Hk;
      try done.
    - by rewrite lookup_insert_ne.
    - intros H. destruct (decide (key = "refreshToken")) as [->|Hne].
      + right. apply lookup_delete_eq.
      + by rewrite lookup_delete_ne. }
  assert (Hapi : forall e, keeps ok (fun _ => True) (api_response_rejected e))
    by (intros [resp c| |]; keeps_auto jwt_decode).
  assert (Hauth : forall e, keeps ok (fun _ => True)
                              (auth_response_rejected jwt_decode e))
    by (intros [resp c| |]; keeps_auto jwt_decode).
  assert (HP : P (localStorage w)) by done.
  destruct a; cbn [act]; try discriminate Hl.
  - unfold mount.
    destruct (call_keeps ok P Hstep
                (initAuth jwt_decode now) (fun _ => OUndefined) (Some t)
                (with_intercepted (with_session w initial_session) false))
      as [Hs Hc]; [keeps_auto jwt_decode|exact Hw|exact HP|]. done.
  - apply (call_keeps ok P Hstep _ OBool);
      [keeps_auto jwt_decode|done|done].
  - apply (call_keeps ok P Hstep _ (fun _ => OUndefined));
      [keeps_auto jwt_decode|done|done].
  - apply (call_keeps ok P Hstep _ OResponse);
      [keeps_auto jwt_decode|done|done].
  - by apply (deliver_keeps jwt_decode ok P Hstep Hapi Hauth).
Qed.

(** X2.  Only [login] ever stores a refresh token.  As long as no login is
    made (and none is in flight), whatever else happens, the stored refresh
    token is the one that was there at the start, or it has been removed:
    renewals never rotate it. *)
Theorem refresh_token_only_set_by_login (acts : list Action) (w : World) :
  Forall (fun a => is_login a = false) acts ->
  conts_keep (never_sets "refreshToken") w ->
  stored "refreshToken" (act_all jwt_decode acts w) = stored "refreshToken" w \/
  stored "refreshToken" (act_all jwt_decode acts w) = None.
Proof.
  intros Hacts Hw.
  set (v0 := stored "refreshToken" w).
  cut ((stored "refreshToken" (act_all jwt_decode acts w) = v0 \/
        stored "refreshToken" (act_all jwt_decode acts w) = None) /\
       conts_keep (never_sets "refreshToken") (act_all jwt_decode acts w));
    [by intros []|].
  assert (H0 : stored "refreshToken" w = v0 \/ stored "refreshToken" w = None)
    by (by left).
  clearbody v0. revert w Hw H0.
  induction Hacts as [|a acts Ha Hacts IH]; intros w Hw H0; [done|].
  destruct (act_never_sets_refresh v0 a w Ha Hw H0) as [Hs Hc].
  change (act_all jwt_decode (a :: acts) w)
    with (act_all jwt_decode acts (act jwt_decode a w)).
  by apply IH.
Qed.

End More.

Section Behaviour.

Variable jwt_decode : string -> option Claims.

Lemma truthy_None : truthy None = false.
Proof. reflexivity. Qed.

Lemma attach_token_None config : attach_token None config = config.
Proof. reflexivity. Qed.

(** ** [login], [logout], [register] *)

(** X3.  A login the server accepts sends one request, stores both tokens of
    the reply (a missing field is stored as the string ["undefined"]), takes
    the user from the reply, sets [isAuthenticated], clears the error and
    [loading], and returns [true]. *)
Theorem login_success (w : World) (m : gmap string string) (t : nat)
    (email password : string) (r : Response) :
  localStorage w = Some m ->
  validateStatus (status r) = true ->
  fresh w ->
  deliver jwt_decode (length (network w)) (HttpReply r)
    (call_bool t (login email password) w)
  = {| localStorage :=
         Some (<["refreshToken" := js_string (refresh_token (data r))]>
                 (<["accessToken" := js_string (access_token (data r))]> m));
       session := {| user := data_user (data r); isAuthenticated := true;
                     loading := false; error := None |};
       href := href w; intercepted := intercepted w;
       network := (Global, login_config email password) :: network w;
       pending := pending w;
       results := (t, Fulfilled (OBool true)) :: results w |}.
Proof.
  intros Hm Hv Hf. open_world w Hm Hf.
  unfold deliver. destruct intercepted0; sym ltac:(rewrite ?Hv);
    norm_world; close_pending pend Hf; reflexivity.
Qed.

(** X4.  The token [login] stores is the one the request interceptor of
    [api] attaches: the first call through [api] after an accepted login
    carries [Bearer <access_token of the reply>], whatever token was stored
    before. *)
Theorem login_then_api (w : World) (m : gmap string string) (t t' : nat)
    (email password : string) (r : Response) (config : Config) :
  localStorage w = Some m ->
  validateStatus (status r) = true ->
  js_string (access_token (data r)) <> "" ->
  fresh w ->
  let w1 := deliver jwt_decode (length (network w)) (HttpReply r)
              (call_bool t (login email password) w) in
  network (call_response t' (api config) w1)
  = (Api, set_header config "Authorization"
            ("Bearer " +:+ js_string (access_token (data r))))
    :: network w1.
Proof.
  intros Hm Hv Hne Hf w1. subst w1.
  pose proof (truthy_Some _ Hne) as Htr.
  open_world w Hm Hf. unfold deliver.
  destruct intercepted0; sym ltac:(rewrite ?Hv);
    norm_world; close_pending pend Hf;
    cbn; rewrite lookup_insert_ne by done; rewrite lookup_insert_eq;
    unfold attach_token; rewrite Htr; reflexivity.
Qed.

(** X5.  [logout] always succeeds locally: whatever the server answers to the
    logout request (any status, or no answer at all), both tokens are
    removed, the user is [null], [isAuthenticated] is [false], and the call
    is fulfilled.  (Left out: a 401 answer while the provider's interceptor
    is installed.) *)
Theorem logout_always_clears (w : World) (m : gmap string string) (t : nat)
    (reply : Reply) :
  localStorage w = Some m ->
  intercepted w && reply_401 reply = false ->
  fresh w ->
  deliver jwt_decode (length (network w)) reply (call_unit t logout w)
  = {| localStorage := Some (delete "refreshToken" (delete "accessToken" m));
       session := {| user := None; isAuthenticated := false;
                     loading := loading (session w);
                     error := error (session w) |};
       href := href w; intercepted := intercepted w;
       network := (Global, logout_config) :: network w;
       pending := pending w;
       results := (t, Fulfilled OUndefined) :: results w |}.
Proof.
  intros Hm Hint Hf. open_world w Hm Hf. cbn in Hint.
  unfold deliver.
  destruct reply as [r|]; [destruct (validateStatus (status r)) eqn:Hv|];
    destruct intercepted0; cbn in Hint; sym ltac:(rewrite ?Hv, ?Hint);
    norm_world; close_pending pend Hf; reflexivity.
Qed.

(** X6.  The call through [api] made right after a logout has settled (no
    other reply arriving in between) is sent with the caller's headers
    unchanged (no token is attached), and if it is answered with a 401 it is
    rejected with that error and the page is sent to [/login], without any
    renewal request.  (Left out: a logout request answered with a 401 while
    the provider's interceptor is installed.) *)
Theorem logout_then_api (w : World) (m : gmap string string) (t t' : nat)
    (reply : Reply) (config : Config) (r : Response) :
  localStorage w = Some m ->
  intercepted w && reply_401 reply = false ->
  _retry config = false ->
  status r = 401%Z ->
  fresh w ->
  let n := length (network w) in
  let w1 := deliver jwt_decode n reply (call_unit t logout w) in
  let w2 := deliver jwt_decode (S n) (HttpReply r)
              (call_response t' (api config) w1) in
  network w2 = (Api, config) :: (Global, logout_config) :: network w /\
  results w2 = (t', Rejected (AxiosErr (Some r) (set_retry config)))
               :: (t, Fulfilled OUndefined) :: results w /\
  href w2 = "/login" /\
  pending w2 = pending w.
Proof.
  intros Hm Hint Hre Hst Hf n w1 w2. subst w2 w1 n.
  assert (Ha : delete "refreshToken" (delete "accessToken" m) !! "accessToken"
               = None) by (by rewrite lookup_delete_ne, lookup_delete_eq).
  assert (Hr : delete "refreshToken" (delete "accessToken" m) !! "refreshToken"
               = None) by apply lookup_delete_eq.
  open_world w Hm Hf. cbn in Hint. unfold deliver.
  destruct reply as [r0|]; [destruct (validateStatus (status r0)) eqn:Hv|];
    destruct intercepted0; cbn in Hint;
    sym ltac:(rewrite ?Hv, ?Hint, ?Ha, ?Hr, ?attach_token_None, ?truthy_None,
                      ?Hst, ?Hre);
    norm_world; close_pending pend Hf;
    sym ltac:(rewrite ?Ha, ?Hr, ?attach_token_None, ?truthy_None, ?Hst, ?Hre);
    close_pending pend Hf; done.
Qed.

(** X7.  With [localStorage] unavailable, [logout] fails after its request
    has settled: the [finally] block throws on the first [removeItem], the
    user and [isAuthenticated] are not reset, and the call is rejected with
    the storage exception.  (Left out: a 401 answer while the provider's
    interceptor is installed.) *)
Theorem logout_storage_unavailable (w : World) (t : nat) (reply : Reply) :
  localStorage w = None ->
  intercepted w && reply_401 reply = false ->
  fresh w ->
  deliver jwt_decode (length (network w)) reply (call_unit t logout w)
  = {| localStorage := None; session := session w;
       href := href w; intercepted := intercepted w;
       network := (Global, logout_config) :: network w;
       pending := pending w;
       results := (t, Rejected StorageErr) :: results w |}.
Proof.
  intros Hm Hint Hf. destruct w as [? ? ? i net pend ?]. cbn in Hm, Hint. subst.
  unfold fresh in Hf. cbn in Hf. unfold deliver.
  destruct reply as [r|]; [destruct (validateStatus (status r)) eqn:Hv|];
    destruct i; cbn in Hint; sym ltac:(rewrite ?Hv, ?Hint);
    norm_world; close_pending pend Hf; reflexivity.
Qed.

(** X8.  [register] never establishes a session: whether the server accepts
    or refuses, the store, the user and [isAuthenticated] are left as they
    were.  It returns [true] with the error cleared on success, and [false]
    with the server's message (or ['Registration failed']) on failure.
    (Left out: a 401 answer while the provider's interceptor is installed.) *)
Theorem register_leaves_session (w : World) (t : nat)
    (name email password : string) (reply : Reply) :
  intercepted w && reply_401 reply = false ->
  fresh w ->
  let config := post_config "/api/auth/register"
                  (RegisterBody name email password) in
  deliver jwt_decode (length (network w)) reply
    (call_bool t (register name email password) w)
  = {| localStorage := localStorage w;
       session := {| user := user (session w);
                     isAuthenticated := isAuthenticated (session w);
                     loading := false;
                     error := if reply_fails reply
                              then Some (error_message (rejection config reply)
                                           "Registration failed")
                              else None |};
       href := href w; intercepted := intercepted w;
       network := (Global, config) :: network w;
       pending := pending w;
       results := (t, Fulfilled (OBool (negb (reply_fails reply)))) :: results w |}.
Proof.
  intros Hint Hf config. destruct w as [? ? ? i net pend ?]. cbn in Hint.
  unfold fresh in Hf. cbn in Hf. unfold deliver.
  destruct reply as [r|]; [destruct (validateStatus (status r)) eqn:Hv|];
    destruct i; cbn in Hint; sym ltac:(rewrite ?Hv, ?Hint);
    norm_world; close_pending pend Hf; reflexivity.
Qed.

End Behaviour.

Section Pipeline.

Variable jwt_decode : string -> option Claims.

(** ** The [api] pipeline and the services *)

(** X9.  A reply the adapter accepts passes through the [api] pipeline
    untouched: the caller gets that very response, one request has been
    sent, and the store, the session and the location are unchanged. *)
Theorem api_success_passes_through (w : World) (m : gmap string string)
    (t : nat) (config : Config) (r : Response) :
  localStorage w = Some m ->
  validateStatus (status r) = true ->
  fresh w ->
  deliver jwt_decode (length (network w)) (HttpReply r)
    (call_response t (api config) w)
  = {| localStorage := Some m; session := session w; href := href w;
       intercepted := intercepted w;
       network := (Api, attach_token (m !! "accessToken") config) :: network w;
       pending := pending w;
       results := (t, Fulfilled (OResponse r)) :: results w |}.
Proof.
  intros Hm Hv Hf. open_world w Hm Hf.
  unfold deliver. sym ltac:(rewrite ?Hv). close_pending pend Hf. reflexivity.
Qed.

(** X10.  An error that is not a 401, or any error on a config already
    flagged [_retry], passes through the [api] pipeline unchanged: no
    renewal request, no redirect, nothing written to the store, and the
    caller is rejected with the adapter's error. *)
Theorem api_other_errors_pass_through (w : World) (m : gmap string string)
    (t : nat) (config : Config) (reply : Reply) :
  localStorage w = Some m ->
  reply_fails reply = true ->
  reply_401 reply && negb (_retry config) = false ->
  fresh w ->
  let c := attach_token (m !! "accessToken") config in
  deliver jwt_decode (length (network w)) reply (call_response t (api config) w)
  = {| localStorage := Some m; session := session w; href := href w;
       intercepted := intercepted w;
       network := (Api, c) :: network w;
       pending := pending w;
       results := (t, Rejected (rejection c reply)) :: results w |}.
Proof.
  intros Hm Hfail H401 Hf c. open_world w Hm Hf.
  unfold deliver. destruct reply as [r|]; cbn in Hfail, H401.
  - apply negb_true_iff in Hfail.
    sym ltac:(rewrite ?Hfail, ?H401). close_pending pend Hf. reflexivity.
  - sym idtac. close_pending pend Hf. reflexivity.
Qed.

(** X11.  The request interceptor changes nothing of a request but its
    [Authorization] header: the URL, the method, the body, the [_retry] flag
    and every other header go out as the caller gave them. *)
Theorem interceptor_only_sets_authorization (w : World)
    (m : gmap string string) (t : nat) (config : Config) :
  localStorage w = Some m ->
  exists c,
    network (call_response t (api config) w) = (Api, c) :: network w /\
    url c = url config /\ method c = method config /\
    body c = body config /\ _retry c = _retry config /\
    forall h, h <> "Authorization" -> headers c !! h = headers config !! h.
Proof.
  intros Hm. destruct w; cbn in Hm; subst.
  exists (attach_token (m !! "accessToken") config). split; [reflexivity|].
  unfold attach_token. destruct (truthy (m !! "accessToken")); cbn;
    repeat split; try done.
  intros h Hh. by rewrite lookup_insert_ne.
Qed.

(** X13.  The [try]/[catch] of a service function is transparent: on an
    accepted reply the caller gets [response.data], on an error that is not a
    401 the caller gets the very error of the adapter, and in both cases only
    the one request was sent and the store and session are unchanged. *)
Theorem service_is_transparent (w : World) (m : gmap string string) (t : nat)
    (f : Data -> Outcome) (config : Config) (reply : Reply) :
  localStorage w = Some m ->
  reply_401 reply = false ->
  fresh w ->
  let c := attach_token (m !! "accessToken") config in
  deliver jwt_decode (length (network w)) reply
    (call_with f t (service config) w)
  = {| localStorage := Some m; session := session w; href := href w;
       intercepted := intercepted w;
       network := (Api, c) :: network w;
       pending := pending w;
       results :=
         (t, match reply with
             | HttpReply r =>
                 if validateStatus (status r) then Fulfilled (f (data r))
                 else Rejected (rejection c reply)
             | NetworkError => Rejected (rejection c reply)
             end) :: results w |}.
Proof.
  intros Hm H401 Hf c. open_world w Hm Hf.
  unfold deliver.
  destruct reply as [r|]; [destruct (validateStatus (status r)) eqn:Hv|];
    cbn in H401; sym ltac:(rewrite ?Hv, ?H401); close_pending pend Hf;
    reflexivity.
Qed.

End Pipeline.

Section Provider.

Variable jwt_decode : string -> option Claims.

(** ** The provider's interceptor and [initAuth] off the main path *)

(** X14.  Logging out with an expired access token still ends signed out.
    When the logout request is answered with a 401 while a refresh token is
    stored, the interceptor renews the token and sends the logout request
    again with the new token; whatever the answer to that second request
    (even another 401), both tokens are then removed, the user is reset and
    the call is fulfilled.  Three requests are sent in all. *)
Theorem logout_with_expired_token (w : World) (m : gmap string string)
    (rt : string) (t : nat) (r1 r2 : Response) (d : Claims) (reply : Reply) :
  localStorage w = Some m ->
  m !! "refreshToken" = Some rt -> rt <> "" ->
  intercepted w = true ->
  status r1 = 401%Z ->
  validateStatus (status r2) = true ->
  jwt_decode (js_string (access_token (data r2))) = Some d ->
  fresh w ->
  let n := length (network w) in
  let tok := js_string (access_token (data r2)) in
  deliver jwt_decode (S (S n)) reply
    (deliver jwt_decode (S n) (HttpReply r2)
       (deliver jwt_decode n (HttpReply r1) (call_unit t logout w)))
  = {| localStorage :=
         Some (delete "refreshToken"
                 (delete "accessToken" (<["accessToken" := tok]> m)));
       session := {| user := None; isAuthenticated := false;
                     loading := loading (session w);
                     error := error (session w) |};
       href := href w; intercepted := true;
       network :=
         (Global, set_header (set_retry logout_config) "Authorization"
                    ("Bearer " +:+ tok))
         :: (Global, refresh_config rt) :: (Global, logout_config) :: network w;
       pending := pending w;
       results := (t, Fulfilled OUndefined) :: results w |}.
Proof.
  intros Hm Hrt Hne Hi Hst Hv Hd Hf n tok. subst n tok.
  open_world w Hm Hf. cbn in Hi. subst.
  pose proof (truthy_Some _ Hne) as Htr.
  unfold deliver at 3. sym ltac:(rewrite ?Hst, ?Hrt, ?Htr).
  unfold deliver at 2.
  sym ltac:(unfold jwt_decode_or_throw; rewrite ?Hv, ?Hd).
  unfold deliver at 1.
  destruct reply as [r3|]; [destruct (validateStatus (status r3)) eqn:Hv3|];
    sym ltac:(rewrite ?Hv3); try (destruct (status r3 =? 401)%Z; cbn);
    norm_world; close_pending pend Hf; reflexivity.
Qed.

(** X15.  A wrong password while signed out: the login is refused with a 401
    and no refresh token is stored.  The interceptor's renewal attempt fails
    before any refresh request is made; [login] returns [false] with the
    server's message and is not retried, but a [logout] request has been
    fired on the way. *)
Theorem login_refused_signed_out (w : World) (m : gmap string string)
    (t : nat) (email password : string) (r : Response) :
  localStorage w = Some m ->
  truthy (m !! "refreshToken") = false ->
  intercepted w = true ->
  status r = 401%Z ->
  fresh w ->
  let n := length (network w) in
  deliver jwt_decode n (HttpReply r) (call_bool t (login email password) w)
  = {| localStorage := Some m;
       session := {| user := user (session w);
                     isAuthenticated := isAuthenticated (session w);
                     loading := false;
                     error := Some (error_message
                                      (AxiosErr (Some r) (login_config email password))
                                      "Login failed") |};
       href := href w; intercepted := true;
       network := (Global, logout_config)
                  :: (Global, login_config email password) :: network w;
       pending := <[S n := awaiting_logout true]> (pending w);
       results := (t, Fulfilled (OBool false)) :: results w |}.
Proof.
  intros Hm Hrt Hi Hst Hf n. subst n.
  open_world w Hm Hf. cbn in Hi. subst.
  unfold deliver. sym ltac:(rewrite ?Hst, ?Hrt).
  norm_world. close_pending pend Hf. reflexivity.
Qed.

(** X16.  A stored access token that [jwt_decode] cannot read: on mount
    [initAuth] catches the error, fires [logout] and resolves the session as
    signed out without any renewal; whatever the server answers to the logout
    request, both tokens are then removed. *)
Theorem mount_undecodable_token (w : World) (m : gmap string string)
    (a rt : string) (now : Z) (t : nat) (reply : Reply) :
  localStorage w = Some m ->
  m !! "accessToken" = Some a -> a <> "" ->
  m !! "refreshToken" = Some rt -> rt <> "" ->
  jwt_decode a = None ->
  fresh w ->
  let w1 := mount jwt_decode now t w in
  (session w1 = logged_out /\ localStorage w1 = Some m /\
   results w1 = (t, Fulfilled OUndefined) :: results w /\
   network w1 = (Global, logout_config) :: network w) /\
  deliver jwt_decode (length (network w)) reply w1
  = {| localStorage := Some (delete "refreshToken" (delete "accessToken" m));
       session := logged_out; href := href w; intercepted := true;
       network := (Global, logout_config) :: network w;
       pending := pending w;
       results := (t, Fulfilled OUndefined) :: results w |}.
Proof.
  intros Hm Ha Hane Hrt Hne Hd Hf w1. subst w1.
  open_world w Hm Hf. unfold mount.
  pose proof (truthy_Some _ Hne) as Htr. pose proof (truthy_Some _ Hane) as Hta.
  split.
  - sym ltac:(unfold jwt_decode_or_throw; rewrite ?Ha, ?Hrt, ?Htr, ?Hta, ?Hd).
    done.
  - unfold deliver.
    destruct reply as [r|]; [destruct (validateStatus (status r)) eqn:Hv|];
      sym ltac:(unfold jwt_decode_or_throw;
                rewrite ?Ha, ?Hrt, ?Htr, ?Hta, ?Hd, ?Hv);
      norm_world; close_pending pend Hf; reflexivity.
Qed.

(** X17.  A renewal the server grants with a token [jwt_decode] cannot read:
    [refreshAccessToken] has already stored the new token when decoding
    fails, so it returns [false] with the unreadable token in the store and
    the session unchanged, and a [logout] request in flight. *)
Theorem refresh_undecodable_token (w : World) (m : gmap string string)
    (rt : string) (t : nat) (r : Response) :
  localStorage w = Some m ->
  m !! "refreshToken" = Some rt -> rt <> "" ->
  validateStatus (status r) = true ->
  jwt_decode (js_string (access_token (data r))) = None ->
  fresh w ->
  let n := length (network w) in
  deliver jwt_decode n (HttpReply r)
    (call_bool t (refreshAccessToken jwt_decode) w)
  = {| localStorage :=
         Some (<["accessToken" := js_string (access_token (data r))]> m);
       session := session w; href := href w; intercepted := intercepted w;
       network := (Global, logout_config) :: (Global, refresh_config rt)
                  :: network w;
       pending := <[S n := awaiting_logout (intercepted w)]> (pending w);
       results := (t, Fulfilled (OBool false)) :: results w |}.
Proof.
  intros Hm Hrt Hne Hv Hd Hf n. subst n. open_world w Hm Hf.
  pose proof (truthy_Some _ Hne) as Htr.
  unfold deliver.
  destruct intercepted0;
    sym ltac:(unfold jwt_decode_or_throw; rewrite ?Hrt, ?Htr, ?Hv, ?Hd);
    norm_world; close_pending pend Hf; reflexivity.
Qed.

(** X18.  Without a stored refresh token [refreshAccessToken] sends no
    refresh request at all: it returns [false] at once, leaving the store and
    the session as they are, with a [logout] request fired. *)
Theorem refresh_without_token (w : World) (m : gmap string string) (t : nat) :
  localStorage w = Some m ->
  truthy (m !! "refreshToken") = false ->
  call_bool t (refreshAccessToken jwt_decode) w
  = {| localStorage := Some m; session := session w; href := href w;
       intercepted := intercepted w;
       network := (Global, logout_config) :: network w;
       pending := <[length (network w) := awaiting_logout (intercepted w)]>
                    (pending w);
       results := (t, Fulfilled (OBool false)) :: results w |}.
Proof.
  intros Hm Hrt. destruct w as [? ? ? i ? ? ?]; cbn in Hm; subst.
  unfold call_bool. destruct i; sym ltac:(rewrite ?Hrt); reflexivity.
Qed.

(** X22.  The route guards only look at [isAuthenticated], not at [loading]:
    while the renewal made on mount for an expired token is in flight, a
    protected route already redirects to [/login]; once the renewal is
    granted, it is the login layout that redirects to [/]. *)
Theorem guards_during_startup_renewal (w : World) (m : gmap string string)
    (a rt : string) (d d' : Claims) (now : Z) (t : nat) (r : Response) :
  localStorage w = Some m ->
  m !! "accessToken" = Some a -> a <> "" ->
  m !! "refreshToken" = Some rt -> rt <> "" ->
  jwt_decode a = Some d ->
  (exp d * 1000 <? now)%Z = true ->
  validateStatus (status r) = true ->
  jwt_decode (js_string (access_token (data r))) = Some d' ->
  fresh w ->
  let w1 := mount jwt_decode now t w in
  let w2 := deliver jwt_decode (length (network w)) (HttpReply r) w1 in
  (loading (session w1) = true /\
   ProtectedRoute (session w1) = Navigate "/login" /\
   AuthLayout (session w1) = Children) /\
  (loading (session w2) = false /\
   ProtectedRoute (session w2) = Children /\
   AuthLayout (session w2) = Navigate "/").
Proof.
  intros Hm Ha Hane Hrt Hne Hd Hexp Hv Hd' Hf w1 w2. subst w2 w1.
  destruct (mount_expired jwt_decode w m a rt d now t) as (_ & -> & _); try done.
  rewrite (mount_expired_success jwt_decode w m a rt d now t r d') by done.
  done.
Qed.

End Provider.

(** ** The theme *)

(** X19.  Saving a mode and reading it back: after the effect has stored a
    non-empty [mode], the initial state computed on the next load is that
    very mode, and no other entry of the store has changed. *)
Theorem theme_round_trip (w : World) (m : gmap string string) (mode : string) :
  localStorage w = Some m ->
  mode <> "" ->
  exists w1,
    run_sync (save_mode mode) w = Some (w1, Fulfilled tt) /\
    run_sync savedMode_or_light w1 = Some (w1, Fulfilled mode) /\
    forall key, key <> "themeMode" -> stored key w1 = stored key w.
Proof.
  intros Hm Hne. destruct w; cbn in Hm; subst.
  eexists. split; [reflexivity|]. cbn. rewrite lookup_insert_eq.
  rewrite (truthy_Some _ Hne). split; [done|].
  intros key Hk. unfold stored. cbn. by rewrite lookup_insert_ne.
Qed.

(** X20.  Toggling survives a reload and normalises the mode: whatever is
    stored under ['themeMode'] (nothing, an empty string, or a string that
    is no mode at all), the state read from it, toggled and saved, is read
    back on the next load, and it is ['light'] or ['dark']: ['dark'] exactly
    when the stored mode was ['light']. *)
Theorem theme_toggle_persists (w : World) (m : gmap string string) :
  localStorage w = Some m ->
  exists mode w1,
    run_sync savedMode_or_light w = Some (w, Fulfilled mode) /\
    mode = (if truthy (m !! "themeMode")
            then js_string_null (m !! "themeMode") else "light") /\
    run_sync (save_mode (toggleTheme mode)) w = Some (w1, Fulfilled tt) /\
    run_sync savedMode_or_light w1 = Some (w1, Fulfilled (toggleTheme mode)) /\
    (toggleTheme mode = "light" \/ toggleTheme mode = "dark") /\
    (toggleTheme mode = "dark" <-> mode = "light") /\
    toggleTheme (toggleTheme (toggleTheme mode)) = toggleTheme mode.
Proof.
  intros Hm. destruct w; cbn in Hm; subst.
  eexists _, _. split; [reflexivity|]. split; [reflexivity|].
  split; [reflexivity|]. cbn. rewrite lookup_insert_eq.
  set (mode := if truthy (m !! "themeMode") then _ else _).
  assert (Ht : truthy (Some (toggleTheme mode)) = true).
  { unfold toggleTheme. by destruct (String.eqb mode "light"). }
  rewrite Ht. split; [done|].
  unfold toggleTheme. destruct (String.eqb_spec mode "light") as [->|Hne];
    cbn; repeat split; try done; auto.
Qed.

(** * Runs on sample data *)

(** C1, as stated, fails: two calls through [api] are in flight, both are
    answered with a 401 before any renewal has completed, and two renewal
    requests are on the network, not one.  The callers do not share an
    outcome either: when the first renewal is refused and the second one is
    granted, the first call is rejected while the second one is replayed. *)
Lemma C1_counterexample :
  let w := call_response 2 (api sample_config)
             (call_response 1 (api sample_config) running_app) in
  let w' := deliver_all sample_jwt_decode
              [(0, HttpReply expired); (1, HttpReply expired)] w in
  let w'' := deliver_all sample_jwt_decode
               [(2, HttpReply revoked); (3, HttpReply (renewed "T2"))] w' in
  renewals w = 0 /\ renewals w' = 2 /\ renewals w' <> 1 /\
  results w' = [] /\
  (exists e, results w'' = [(1, Rejected e)]) /\
  (owner <$> pending w'' !! 4) = Some (Some 2).
Proof.
  vm_compute. repeat split; try done. eexists. reflexivity.
Qed.

(** C3, as stated, fails: with no code of [AuthProvider] involved (its
    interceptor is not installed), the 401 handler of [api] itself replaces
    the stored access token, and removes both tokens when the renewal is
    refused. *)
Lemma C3_counterexample :
  let w1 := deliver_all sample_jwt_decode
              [(0, HttpReply expired); (1, HttpReply (renewed "T2"))]
              (call_response 1 (api sample_config) pipeline_only) in
  let w2 := deliver_all sample_jwt_decode
              [(0, HttpReply expired); (1, HttpReply revoked)]
              (call_response 1 (api sample_config) pipeline_only) in
  intercepted pipeline_only = false /\
  stored "accessToken" pipeline_only = Some "T1" /\
  stored "accessToken" w1 = Some "T2" /\
  stored "accessToken" w2 = None /\ stored "refreshToken" w2 = None.
Proof. vm_compute. done. Qed.

(** C4, as stated, fails: the pair held after a successful refresh is not a
    new pair taken from the server's reply.  Two stores that differ in their
    refresh token still differ after the same successful refresh: the
    refresh token is kept, only the access token is replaced. *)
Lemma C4_counterexample :
  ~ exists new_pair : Response -> option string * option string,
      forall (m : gmap string string) (rt : string) (r : Response),
        m !! "refreshToken" = Some rt -> rt <> "" ->
        validateStatus (status r) = true ->
        let w1 := deliver sample_jwt_decode 0 (HttpReply r)
                    (call_bool 1 (refreshAccessToken sample_jwt_decode)
                       (sample_world (Some m) logged_in true)) in
        results w1 = [(1, Fulfilled (OBool true))] ->
        (stored "accessToken" w1, stored "refreshToken" w1) = new_pair r.
Proof.
  intros [new_pair H].
  pose proof (H (sample_store (Some "T1") (Some "R1")) "R1" (renewed "T2")
                eq_refl ltac:(done) eq_refl eq_refl) as H1.
  pose proof (H (sample_store (Some "T1") (Some "R9")) "R9" (renewed "T2")
                eq_refl ltac:(done) eq_refl eq_refl) as H2.
  vm_compute in H1, H2. congruence.
Qed.

(** C5, as stated, fails.  When [refreshAccessToken] returns [false] the
    store still holds both tokens and the session is still authenticated:
    they are reset only when the [logout] request it fired settles.  And when
    the renewal made by the 401 handler of [api] is refused, the call is
    over, the store is empty, and the session state is still authenticated. *)
Lemma C5_counterexample :
  let w1 := deliver sample_jwt_decode 0 (HttpReply revoked)
              (call_bool 1 (refreshAccessToken sample_jwt_decode) running_app) in
  let w2 := deliver_all sample_jwt_decode
              [(0, HttpReply expired); (1, HttpReply revoked)]
              (call_response 1 (api sample_config) running_app) in
  (results w1 = [(1, Fulfilled (OBool false))] /\
   stored "accessToken" w1 = Some "T1" /\ stored "refreshToken" w1 = Some "R1" /\
   isAuthenticated (session w1) = true) /\
  (pending w2 = ∅ /\ (exists e, results w2 = [(1, Rejected e)]) /\
   stored "accessToken" w2 = None /\ stored "refreshToken" w2 = None /\
   isAuthenticated (session w2) = true /\ user (session w2) = Some sample_user).
Proof.
  vm_compute. repeat split; try done. eexists. reflexivity.
Qed.

(** C6, as stated, fails: the stored access token expired at second 1000, the
    provider mounts at second 2000 and the renewal is refused.  [initAuth] has
    returned and [loading] is [false], yet both tokens are still stored. *)
Lemma C6_counterexample :
  let w := sample_world (Some pair_T1_R1) initial_session false in
  let w2 := deliver sample_jwt_decode 0 (HttpReply revoked)
              (mount sample_jwt_decode 2000000 1 w) in
  results w2 = [(1, Fulfilled OUndefined)] /\
  loading (session w2) = false /\ isAuthenticated (session w2) = false /\
  stored "accessToken" w2 = Some "T1" /\ stored "refreshToken" w2 = Some "R1".
Proof. vm_compute. done. Qed.

(** C7 on the failing input: a signed-in user, the interceptor installed, and
    a login that the server refuses with a 401.  The interceptor takes the
    401 for an expired token: it renews the access token, which replaces the
    stored one, and sends the login request a second time. *)
Theorem C7_refused_login_renews_and_retries :
  let refused := {| status := 401; data := error_data "Invalid credentials" |} in
  let w' := deliver_all sample_jwt_decode
              [(0, HttpReply refused); (1, HttpReply (renewed "T2"));
               (2, HttpReply refused)]
              (call_bool 1 (login "a@b.com" "wrong") running_app) in
  results w' = [(1, Fulfilled (OBool false))] /\
  error (session w') = Some "Invalid credentials" /\
  stored "accessToken" running_app = Some "T1" /\
  stored "accessToken" w' = Some "T2" /\
  map (fun req => url req.2) (network w')
  = ["/api/auth/login"; "/api/auth/refresh"; "/api/auth/login"] /\
  pending w' = ∅.
Proof. vm_compute. done. Qed.

(** The same refused login when the renewal is refused too: the failed login
    signs the user out. *)
Lemma refused_login_signs_out :
  let refused := {| status := 401; data := error_data "Invalid credentials" |} in
  let w' := deliver_all sample_jwt_decode
              [(0, HttpReply refused); (1, HttpReply revoked);
               (2, HttpReply (renewed ""))]
              (call_bool 1 (login "a@b.com" "wrong") running_app) in
  results w' = [(1, Fulfilled (OBool false))] /\
  session running_app = logged_in /\
  user (session w') = None /\ isAuthenticated (session w') = false /\
  stored "accessToken" w' = None /\ stored "refreshToken" w' = None.
Proof. vm_compute. done. Qed.

(** A refused renewal answered with a 401 is renewed again, for as long as
    the server answers so. *)
Lemma refused_renewal_is_retried :
  let w' := deliver_all sample_jwt_decode
              [(0, HttpReply expired); (1, HttpReply expired);
               (2, HttpReply expired)]
              (call_bool 1 (refreshAccessToken sample_jwt_decode) running_app) in
  renewals w' = 4 /\ results w' = [].
Proof. vm_compute. done. Qed.

(** C2 on the failing input: the interceptor installed, a call through
    [api] answered with a 401, and the renewal made by the 401 handler of
    [api] answered with a 401 as well.  The provider's interceptor takes that
    401 for an expired token: it makes a renewal of its own and, once that
    one is granted, sends the first renewal request again.  When the replay
    of the call is then answered with a 401 and rejected, three renewal
    requests and five requests in all have been sent for the one call. *)
Theorem C2_refused_renewal_is_renewed_again :
  let w' := deliver_all sample_jwt_decode
              [(0, HttpReply expired); (1, HttpReply expired);
               (2, HttpReply (renewed "T2")); (3, HttpReply (renewed "T3"));
               (4, HttpReply expired)]
              (call_response 1 (api sample_config) running_app) in
  renewals w' = 3 /\ renewals w' <> 1 /\
  map (fun req => url req.2) (network w')
  = ["/strategies"; "/api/auth/refresh"; "/api/auth/refresh";
     "/api/auth/refresh"; "/strategies"] /\
  authorization <$> network w'
  = [Some "Bearer T3"; Some "Bearer T2"; None; None; Some "Bearer T1"] /\
  (exists c, results w' = [(1, Rejected (AxiosErr (Some expired) c))] /\
             _retry c = true) /\
  stored "accessToken" w' = Some "T3" /\
  pending w' = ∅.
Proof.
  vm_compute. repeat split; try done. eexists. split; reflexivity.
Qed.

(** C8, as stated, fails in both directions.  A provider that mounts on a
    store holding an access token but no refresh token resolves the session
    as signed out, and the next call through [api] carries the stored token.
    After a refused renewal in the 401 handler of [api] the store is empty
    while the session state is still authenticated, and the next call
    carries no token. *)
Lemma C8_counterexample :
  let w := mount sample_jwt_decode 0 1
             (sample_world (Some (sample_store (Some "T1") None))
                initial_session false) in
  let w' := deliver_all sample_jwt_decode
              [(0, HttpReply expired); (1, HttpReply revoked)]
              (call_response 1 (api sample_config) running_app) in
  (isAuthenticated (session w) = false /\
   head (authorization <$> network (call_response 2 (api sample_config) w))
   = Some (Some "Bearer T1")) /\
  (isAuthenticated (session w') = true /\
   head (authorization <$> network (call_response 2 (api sample_config) w'))
   = Some None).
Proof. vm_compute. done. Qed.

(** The replay is not covered by the test of the request interceptor: when
    the renewal is granted with an empty access token, the store holds the
    empty string and the replay is sent with the bare [Bearer ] header the 401
    handler has set. *)
Lemma replay_with_empty_token :
  let w' := deliver_all sample_jwt_decode
              [(0, HttpReply expired); (1, HttpReply (renewed ""))]
              (call_response 1 (api sample_config) pipeline_only) in
  stored "accessToken" w' = Some "" /\
  authorization <$> network w' = [Some "Bearer "; None; Some "Bearer T1"].
Proof. vm_compute. done. Qed.

(** C9, as stated, fails: with storage unavailable a login the server accepts
    is reported as failed and leaves the session signed out, and a domain call
    is rejected before any request is sent. *)
Lemma C9_counterexample :
  let w := sample_world None logged_out true in
  let accepted := {| status := 200;
                     data := mkData (Some "T1") (Some "R1") (Some sample_user) None |} in
  let w1 := deliver sample_jwt_decode 0 (HttpReply accepted)
              (call_bool 1 (login "a@b.com" "x") w) in
  let w2 := call_response 2 (api sample_config) w in
  (results w1 = [(1, Fulfilled (OBool false))] /\
   isAuthenticated (session w1) = false /\ user (session w1) = None /\
   error (session w1) = Some "Login failed") /\
  (results w2 = [(2, Rejected StorageErr)] /\ network w2 = []).
Proof. vm_compute. done. Qed.

(** * The theorems at work on the sample data *)

Lemma C10_witness :
  let m := sample_store (Some "T1") None in
  let w := sample_world (Some m) logged_in true in
  (localStorage w = Some m /\ truthy (m !! "refreshToken") = false /\
   _retry sample_config = false /\ status expired = 401%Z /\ fresh w) /\
  results (deliver sample_jwt_decode 0 (HttpReply expired)
             (call_response 1 (api sample_config) w))
  = [(1, Rejected (AxiosErr (Some expired)
                     (set_retry (attach_token (Some "T1") sample_config))))].
Proof.
  intros m w.
  assert (H1 : localStorage w = Some m) by reflexivity.
  assert (H2 : truthy (m !! "refreshToken") = false) by reflexivity.
  assert (H3 : _retry sample_config = false) by reflexivity.
  assert (H4 : status expired = 401%Z) by reflexivity.
  assert (H5 : fresh w) by apply fresh_empty.
  split; [auto|].
  exact (f_equal results
           (C10_no_refresh_token_rejects sample_jwt_decode w m 1 sample_config
              expired H1 H2 H3 H4 H5)).
Defined.

Lemma retry_guard_after_granted_renewal_witness :
  let w := running_app in
  (localStorage w = Some pair_T1_R1 /\ pair_T1_R1 !! "refreshToken" = Some "R1" /\
   "R1" <> "" /\ _retry sample_config = false /\ status expired = 401%Z /\
   validateStatus (status (renewed "T2")) = true /\ fresh w) /\
  length (network
            (deliver sample_jwt_decode 2 (HttpReply expired)
               (deliver sample_jwt_decode 1 (HttpReply (renewed "T2"))
                  (deliver sample_jwt_decode 0 (HttpReply expired)
                     (call_response 1 (api sample_config) w))))) = 3.
Proof.
  intros w.
  assert (H1 : localStorage w = Some pair_T1_R1) by reflexivity.
  assert (H2 : pair_T1_R1 !! "refreshToken" = Some "R1") by reflexivity.
  assert (H3 : "R1" <> "") by discriminate.
  assert (H4 : _retry sample_config = false) by reflexivity.
  assert (H5 : status expired = 401%Z) by reflexivity.
  assert (H6 : validateStatus (status (renewed "T2")) = true) by reflexivity.
  assert (H7 : fresh w) by apply fresh_empty.
  split; [auto 10|].
  exact (f_equal (fun x => length (network x))
           (retry_guard_after_granted_renewal sample_jwt_decode w pair_T1_R1 "R1" 1
              sample_config
              expired (renewed "T2") expired H1 H2 H3 H4 H5 H6 H5 H7)).
Defined.

Lemma C1_witness :
  let w := call_response 2 (api sample_config)
             (call_response 1 (api sample_config) running_app) in
  let calls := [(0, expired); (1, expired)] in
  (localStorage w = Some pair_T1_R1 /\ pair_T1_R1 !! "refreshToken" = Some "R1" /\
   "R1" <> "" /\ NoDup calls.*1) /\
  renewals (deliver_all sample_jwt_decode (unauthorized calls) w)
  = 2 + renewals w.
Proof.
  intros w calls.
  assert (H1 : localStorage w = Some pair_T1_R1) by reflexivity.
  assert (H2 : pair_T1_R1 !! "refreshToken" = Some "R1") by reflexivity.
  assert (H3 : "R1" <> "") by discriminate.
  assert (H4 : NoDup calls.*1).
  { apply (bool_decide_unpack _). vm_compute. exact I. }
  assert (H5 : forall id r, (id, r) ∈ calls ->
            status r = 401%Z /\ id < length (network w) /\
            exists t c, pending w !! id = Some (awaiting_api t c) /\
                        _retry c = false).
  { intros id r Hin.
    apply elem_of_cons in Hin as [Heq|Hin].
    - injection Heq as -> ->. split; [reflexivity|]. split; [cbn; lia|].
      exists 1, (attach_token (Some "T1") sample_config). split; reflexivity.
    - apply list_elem_of_singleton in Hin. injection Hin as -> ->.
      split; [reflexivity|]. split; [cbn; lia|].
      exists 2, (attach_token (Some "T1") sample_config). split; reflexivity. }
  split; [auto|].
  exact (proj1 (proj2 (C1_each_call_renews sample_jwt_decode w pair_T1_R1 "R1"
                         calls H1 H2 H3 H4 H5))).
Defined.

Lemma C3_witness :
  let w := pipeline_only in
  (localStorage w = Some pair_T1_R1 /\ pair_T1_R1 !! "refreshToken" = Some "R1" /\
   "R1" <> "" /\ _retry sample_config = false /\ status expired = 401%Z /\
   intercepted w && reply_401 (HttpReply (renewed "T2")) = false /\ fresh w) /\
  localStorage (deliver sample_jwt_decode 1 (HttpReply (renewed "T2"))
                  (deliver sample_jwt_decode 0 (HttpReply expired)
                     (call_response 1 (api sample_config) w)))
  = Some (<["accessToken" := "T2"]> pair_T1_R1).
Proof.
  intros w.
  assert (H1 : localStorage w = Some pair_T1_R1) by reflexivity.
  assert (H2 : pair_T1_R1 !! "refreshToken" = Some "R1") by reflexivity.
  assert (H3 : "R1" <> "") by discriminate.
  assert (H4 : _retry sample_config = false) by reflexivity.
  assert (H5 : status expired = 401%Z) by reflexivity.
  assert (H6 : intercepted w && reply_401 (HttpReply (renewed "T2")) = false)
    by reflexivity.
  assert (H7 : fresh w) by apply fresh_empty.
  split; [auto 10|].
  exact (proj2 (C3_pipeline_writes_store sample_jwt_decode w pair_T1_R1 "R1" 1
                  sample_config expired (HttpReply (renewed "T2"))
                  H1 H2 H3 H4 H5 H6 H7)).
Defined.

Lemma C4_witness :
  let w := running_app in
  let d := mkClaims "1" "a@b.com" "A" 5000 in
  (localStorage w = Some pair_T1_R1 /\ pair_T1_R1 !! "refreshToken" = Some "R1" /\
   "R1" <> "" /\ validateStatus (status (renewed "T2")) = true /\
   sample_jwt_decode (js_string (access_token (data (renewed "T2")))) = Some d /\
   fresh w) /\
  stored "refreshToken"
    (deliver sample_jwt_decode 0 (HttpReply (renewed "T2"))
       (call_bool 1 (refreshAccessToken sample_jwt_decode) w))
  = Some "R1".
Proof.
  intros w d.
  assert (H1 : localStorage w = Some pair_T1_R1) by reflexivity.
  assert (H2 : pair_T1_R1 !! "refreshToken" = Some "R1") by reflexivity.
  assert (H3 : "R1" <> "") by discriminate.
  assert (H4 : validateStatus (status (renewed "T2")) = true) by reflexivity.
  assert (H5 : sample_jwt_decode (js_string (access_token (data (renewed "T2"))))
               = Some d) by reflexivity.
  assert (H6 : fresh w) by apply fresh_empty.
  split; [auto 10|].
  exact (proj2 (proj2 (C4_refresh_replaces_access_token sample_jwt_decode w
                         pair_T1_R1 "R1" 1 (renewed "T2") d
                         H1 H2 H3 H4 H5 H6))).
Defined.

Lemma C5_witness :
  let w := pipeline_only in
  let reply := HttpReply revoked in
  let reply2 := reply_with 200 no_data in
  (localStorage w = Some pair_T1_R1 /\ pair_T1_R1 !! "refreshToken" = Some "R1" /\
   "R1" <> "" /\ reply_fails reply = true /\
   intercepted w && reply_401 reply = false /\
   intercepted w && reply_401 reply2 = false /\ fresh w) /\
  results (deliver sample_jwt_decode 0 reply
             (call_bool 1 (refreshAccessToken sample_jwt_decode) w))
  = [(1, Fulfilled (OBool false))].
Proof.
  intros w reply reply2.
  assert (H1 : localStorage w = Some pair_T1_R1) by reflexivity.
  assert (H2 : pair_T1_R1 !! "refreshToken" = Some "R1") by reflexivity.
  assert (H3 : "R1" <> "") by discriminate.
  assert (H4 : reply_fails reply = true) by reflexivity.
  assert (H5 : intercepted w && reply_401 reply = false) by reflexivity.
  assert (H6 : intercepted w && reply_401 reply2 = false) by reflexivity.
  assert (H7 : fresh w) by apply fresh_empty.
  split; [auto 10|].
  exact (proj1 (proj1 (C5_refresh_failure sample_jwt_decode w pair_T1_R1 "R1" 1
                         reply reply2 H1 H2 H3 H4 H5 H6 H7))).
Defined.

Lemma C6_witness :
  let w := sample_world (Some pair_T1_R1) initial_session false in
  (localStorage w = Some pair_T1_R1 /\ fresh w) /\
  session (deliver sample_jwt_decode 0 (HttpReply revoked)
             (mount sample_jwt_decode 2000000 1 w))
  = logged_out.
Proof.
  intros w.
  assert (H1 : localStorage w = Some pair_T1_R1) by reflexivity.
  assert (H2 : fresh w) by apply fresh_empty.
  split; [auto|].
  pose proof (proj2 (C6_initialize sample_jwt_decode w pair_T1_R1 2000000 1 H1 H2)
                "T1" "R1" (mkClaims "1" "a@b.com" "A" 1000)
                eq_refl ltac:(discriminate) eq_refl ltac:(discriminate) eq_refl)
    as H.
  cbn [exp Z.ltb Z.mul Z.compare Pos.mul Pos.compare Pos.compare_cont Pos.add] in H.
  exact (proj1 (proj1 (proj2 (proj2 H) (HttpReply revoked) eq_refl))).
Defined.

Lemma C8_witness :
  let w := running_app in
  (localStorage w = Some pair_T1_R1 /\ fresh w /\
   pair_T1_R1 !! "refreshToken" = Some "R1" /\ "R1" <> "" /\
   _retry sample_config = false /\ status expired = 401%Z /\
   validateStatus (status (renewed "T2")) = true) /\
  exists c rest,
    network (deliver sample_jwt_decode 1 (HttpReply (renewed "T2"))
               (deliver sample_jwt_decode 0 (HttpReply expired)
                  (call_response 1 (api sample_config) w)))
    = (Api, c) :: rest /\
    headers c !! "Authorization" = Some "Bearer T2".
Proof.
  intros w.
  assert (H1 : localStorage w = Some pair_T1_R1) by reflexivity.
  assert (H2 : fresh w) by apply fresh_empty.
  assert (H3 : pair_T1_R1 !! "refreshToken" = Some "R1") by reflexivity.
  assert (H4 : "R1" <> "") by discriminate.
  assert (H5 : _retry sample_config = false) by reflexivity.
  assert (H6 : status expired = 401%Z) by reflexivity.
  assert (H7 : validateStatus (status (renewed "T2")) = true) by reflexivity.
  split; [auto 10|].
  destruct (proj2 (C8_token_read_from_store sample_jwt_decode w pair_T1_R1 1
                     sample_config H1 H2)
              "R1" expired (renewed "T2") H3 H4 H5 H6 H7)
    as (c & rest & Hnet & _ & Hh & _).
  exists c, rest. split; [exact Hnet | exact Hh].
Defined.

Lemma C9_witness :
  let w := sample_world None logged_out true in
  (localStorage w = None /\ fresh w) /\
  results (call_response 1 (api sample_config) w) = [(1, Rejected StorageErr)].
Proof.
  intros w.
  assert (H1 : localStorage w = None) by reflexivity.
  assert (H2 : fresh w) by apply fresh_empty.
  split; [auto|].
  exact (f_equal results
           (proj1 (proj2 (C9_storage_unavailable sample_jwt_decode w 1 H1 H2))
              sample_config)).
Defined.

(** * The further properties at work on the sample data *)

Lemma conts_keep_empty ok st s h i net res :
  conts_keep ok (mkWorld st s h i net ∅ res).
Proof. intros id pd r H. cbn in H. by rewrite lookup_empty in H. Qed.

Lemma other_entries_untouched_witness :
  ("themeMode" <> "accessToken" /\ "themeMode" <> "refreshToken" /\
   conts_keep (leaves "themeMode") themed_app) /\
  stored "themeMode" (act_all sample_jwt_decode sample_session themed_app)
  = stored "themeMode" themed_app.
Proof.
  assert (H1 : "themeMode" <> "accessToken") by discriminate.
  assert (H2 : "themeMode" <> "refreshToken") by discriminate.
  assert (H3 : conts_keep (leaves "themeMode") themed_app)
    by apply conts_keep_empty.
  split; [auto|].
  exact (other_entries_untouched sample_jwt_decode "themeMode" sample_session
           themed_app H1 H2 H3).
Defined.

Lemma refresh_token_only_set_by_login_witness :
  let acts := [DoApi 1 sample_config; DoReply 0 (HttpReply expired);
               DoReply 1 (HttpReply (renewed "T2")); DoLogout 2] in
  (Forall (fun a => is_login a = false) acts /\
   conts_keep (never_sets "refreshToken") running_app) /\
  (stored "refreshToken" (act_all sample_jwt_decode acts running_app)
   = stored "refreshToken" running_app \/
   stored "refreshToken" (act_all sample_jwt_decode acts running_app) = None).
Proof.
  intros acts.
  assert (H1 : Forall (fun a => is_login a = false) acts)
    by (repeat constructor).
  assert (H2 : conts_keep (never_sets "refreshToken") running_app)
    by apply conts_keep_empty.
  split; [auto|].
  exact (refresh_token_only_set_by_login sample_jwt_decode acts running_app H1 H2).
Defined.

Lemma theme_survives_session_witness :
  (conts_keep (leaves "themeMode") themed_app /\
   run_sync savedMode_or_light themed_app = Some (themed_app, Fulfilled "dark")) /\
  run_sync savedMode_or_light (act_all sample_jwt_decode sample_session themed_app)
  = Some (act_all sample_jwt_decode sample_session themed_app, Fulfilled "dark").
Proof.
  assert (H1 : conts_keep (leaves "themeMode") themed_app)
    by apply conts_keep_empty.
  assert (H2 : run_sync savedMode_or_light themed_app
               = Some (themed_app, Fulfilled "dark")) by reflexivity.
  split; [auto|].
  exact (theme_survives_session sample_jwt_decode sample_session themed_app
           "dark" H1 H2).
Defined.

Lemma login_success_witness :
  let w := sample_world (Some ∅) logged_out true in
  (localStorage w = Some ∅ /\ validateStatus (status accepted) = true /\ fresh w) /\
  results (deliver sample_jwt_decode 0 (HttpReply accepted)
             (call_bool 1 (login "a@b.com" "x") w))
  = [(1, Fulfilled (OBool true))].
Proof.
  intros w.
  assert (H1 : localStorage w = Some ∅) by reflexivity.
  assert (H2 : validateStatus (status accepted) = true) by reflexivity.
  assert (H3 : fresh w) by apply fresh_empty.
  split; [auto|].
  exact (f_equal results
           (login_success sample_jwt_decode w ∅ 1 "a@b.com" "x" accepted
              H1 H2 H3)).
Defined.

Lemma login_then_api_witness :
  let w := sample_world (Some ∅) logged_out true in
  (localStorage w = Some ∅ /\ validateStatus (status accepted) = true /\
   js_string (access_token (data accepted)) <> "" /\ fresh w) /\
  authorization <$>
    network (call_response 2 (api sample_config)
               (deliver sample_jwt_decode 0 (HttpReply accepted)
                  (call_bool 1 (login "a@b.com" "x") w)))
  = [Some "Bearer T1"; None].
Proof.
  intros w.
  assert (H1 : localStorage w = Some ∅) by reflexivity.
  assert (H2 : validateStatus (status accepted) = true) by reflexivity.
  assert (H3 : js_string (access_token (data accepted)) <> "") by discriminate.
  assert (H4 : fresh w) by apply fresh_empty.
  split; [auto|].
  exact (eq_trans
           (f_equal (fmap authorization)
              (login_then_api sample_jwt_decode w ∅ 1 2 "a@b.com" "x" accepted
                 sample_config H1 H2 H3 H4))
           eq_refl).
Defined.

Lemma logout_always_clears_witness :
  let w := running_app in
  let reply := reply_with 500 (error_data "down") in
  (localStorage w = Some pair_T1_R1 /\
   intercepted w && reply_401 reply = false /\ fresh w) /\
  session (deliver sample_jwt_decode 0 reply (call_unit 1 logout w)) = logged_out.
Proof.
  intros w reply.
  assert (H1 : localStorage w = Some pair_T1_R1) by reflexivity.
  assert (H2 : intercepted w && reply_401 reply = false) by reflexivity.
  assert (H3 : fresh w) by apply fresh_empty.
  split; [auto|].
  exact (f_equal session
           (logout_always_clears sample_jwt_decode w pair_T1_R1 1 reply H1 H2 H3)).
Defined.

Lemma logout_then_api_witness :
  let w := running_app in
  (localStorage w = Some pair_T1_R1 /\
   intercepted w && reply_401 no_content = false /\
   _retry sample_config = false /\ status expired = 401%Z /\ fresh w) /\
  href (deliver sample_jwt_decode 1 (HttpReply expired)
          (call_response 2 (api sample_config)
             (deliver sample_jwt_decode 0 no_content (call_unit 1 logout w))))
  = "/login".
Proof.
  intros w.
  assert (H1 : localStorage w = Some pair_T1_R1) by reflexivity.
  assert (H2 : intercepted w && reply_401 no_content = false) by reflexivity.
  assert (H3 : _retry sample_config = false) by reflexivity.
  assert (H4 : status expired = 401%Z) by reflexivity.
  assert (H5 : fresh w) by apply fresh_empty.
  split; [auto 10|].
  exact (proj1 (proj2 (proj2
           (logout_then_api sample_jwt_decode w pair_T1_R1 1 2 no_content
              sample_config expired H1 H2 H3 H4 H5)))).
Defined.

Lemma logout_storage_unavailable_witness :
  let w := sample_world None logged_in true in
  (localStorage w = None /\ intercepted w && reply_401 no_content = false /\
   fresh w) /\
  deliver sample_jwt_decode 0 no_content (call_unit 1 logout w)
  = {| localStorage := None; session := logged_in; href := "/";
       intercepted := true; network := [(Global, logout_config)];
       pending := ∅; results := [(1, Rejected StorageErr)] |}.
Proof.
  intros w.
  assert (H1 : localStorage w = None) by reflexivity.
  assert (H2 : intercepted w && reply_401 no_content = false) by reflexivity.
  assert (H3 : fresh w) by apply fresh_empty.
  split; [auto|].
  exact (logout_storage_unavailable sample_jwt_decode w 1 no_content H1 H2 H3).
Defined.

Lemma register_leaves_session_witness :
  let w := sample_world (Some ∅) logged_out true in
  let reply := reply_with 409 (error_data "Email already registered") in
  (intercepted w && reply_401 reply = false /\ fresh w) /\
  error (session (deliver sample_jwt_decode 0 reply
                    (call_bool 1 (register "A" "a@b.com" "x") w)))
  = Some "Email already registered".
Proof.
  intros w reply.
  assert (H1 : intercepted w && reply_401 reply = false) by reflexivity.
  assert (H2 : fresh w) by apply fresh_empty.
  split; [auto|].
  exact (f_equal (fun x => error (session x))
           (register_leaves_session sample_jwt_decode w 1 "A" "a@b.com" "x"
              reply H1 H2)).
Defined.

Lemma api_success_passes_through_witness :
  let w := running_app in
  let r := {| status := 200; data := no_data |} in
  (localStorage w = Some pair_T1_R1 /\ validateStatus (status r) = true /\
   fresh w) /\
  results (deliver sample_jwt_decode 0 (HttpReply r)
             (call_response 1 (api sample_config) w))
  = [(1, Fulfilled (OResponse r))].
Proof.
  intros w r.
  assert (H1 : localStorage w = Some pair_T1_R1) by reflexivity.
  assert (H2 : validateStatus (status r) = true) by reflexivity.
  assert (H3 : fresh w) by apply fresh_empty.
  split; [auto|].
  exact (f_equal results
           (api_success_passes_through sample_jwt_decode w pair_T1_R1 1
              sample_config r H1 H2 H3)).
Defined.

Lemma api_other_errors_pass_through_witness :
  let w := running_app in
  let reply := reply_with 500 (error_data "down") in
  (localStorage w = Some pair_T1_R1 /\ reply_fails reply = true /\
   reply_401 reply && negb (_retry sample_config) = false /\ fresh w) /\
  network (deliver sample_jwt_decode 0 reply
             (call_response 1 (api sample_config) w))
  = [(Api, attach_token (Some "T1") sample_config)].
Proof.
  intros w reply.
  assert (H1 : localStorage w = Some pair_T1_R1) by reflexivity.
  assert (H2 : reply_fails reply = true) by reflexivity.
  assert (H3 : reply_401 reply && negb (_retry sample_config) = false)
    by reflexivity.
  assert (H4 : fresh w) by apply fresh_empty.
  split; [auto|].
  exact (f_equal network
           (api_other_errors_pass_through sample_jwt_decode w pair_T1_R1 1
              sample_config reply H1 H2 H3 H4)).
Defined.

Lemma interceptor_only_sets_authorization_witness :
  localStorage running_app = Some pair_T1_R1 /\
  exists c,
    network (call_response 1 (api (uploadCustomList_config "csv")) running_app)
    = [(Api, c)] /\
    headers c !! "Content-Type" = Some "multipart/form-data".
Proof.
  assert (H1 : localStorage running_app = Some pair_T1_R1) by reflexivity.
  split; [exact H1|].
  destruct (interceptor_only_sets_authorization running_app pair_T1_R1 1
              (uploadCustomList_config "csv") H1)
    as (c & Hn & _ & _ & _ & _ & Hh).
  exists c. split; [exact Hn|].
  exact (eq_trans (Hh "Content-Type" ltac:(discriminate)) eq_refl).
Defined.

Lemma service_is_transparent_witness :
  let w := running_app in
  let reply := reply_with 404 (error_data "No such strategy") in
  (localStorage w = Some pair_T1_R1 /\ reply_401 reply = false /\ fresh w) /\
  exists e,
    results (deliver sample_jwt_decode 0 reply
               (call_with (fun _ => OUndefined) 1 (getStrategy "42") w))
    = [(1, Rejected e)].
Proof.
  intros w reply.
  assert (H1 : localStorage w = Some pair_T1_R1) by reflexivity.
  assert (H2 : reply_401 reply = false) by reflexivity.
  assert (H3 : fresh w) by apply fresh_empty.
  split; [auto|].
  eexists.
  exact (f_equal results
           (service_is_transparent sample_jwt_decode w pair_T1_R1 1
              (fun _ => OUndefined) (get_config "/strategies/42") reply
              H1 H2 H3)).
Defined.

Lemma logout_with_expired_token_witness :
  let w := running_app in
  let d := mkClaims "1" "a@b.com" "A" 5000 in
  (localStorage w = Some pair_T1_R1 /\ pair_T1_R1 !! "refreshToken" = Some "R1" /\
   "R1" <> "" /\ intercepted w = true /\ status expired = 401%Z /\
   validateStatus (status (renewed "T2")) = true /\
   sample_jwt_decode (js_string (access_token (data (renewed "T2")))) = Some d /\
   fresh w) /\
  results (deliver sample_jwt_decode 2 (HttpReply expired)
             (deliver sample_jwt_decode 1 (HttpReply (renewed "T2"))
                (deliver sample_jwt_decode 0 (HttpReply expired)
                   (call_unit 1 logout w))))
  = [(1, Fulfilled OUndefined)].
Proof.
  intros w d.
  assert (H1 : localStorage w = Some pair_T1_R1) by reflexivity.
  assert (H2 : pair_T1_R1 !! "refreshToken" = Some "R1") by reflexivity.
  assert (H3 : "R1" <> "") by discriminate.
  assert (H4 : intercepted w = true) by reflexivity.
  assert (H5 : status expired = 401%Z) by reflexivity.
  assert (H6 : validateStatus (status (renewed "T2")) = true) by reflexivity.
  assert (H7 : sample_jwt_decode (js_string (access_token (data (renewed "T2"))))
               = Some d) by reflexivity.
  assert (H8 : fresh w) by apply fresh_empty.
  split; [auto 10|].
  exact (f_equal results
           (logout_with_expired_token sample_jwt_decode w pair_T1_R1 "R1" 1
              expired (renewed "T2") d (HttpReply expired)
              H1 H2 H3 H4 H5 H6 H7 H8)).
Defined.

Lemma login_refused_signed_out_witness :
  let w := sample_world (Some ∅) logged_out true in
  let r := {| status := 401; data := error_data "Invalid credentials" |} in
  (localStorage w = Some ∅ /\
   truthy ((∅ : gmap string string) !! "refreshToken") = false /\
   intercepted w = true /\ status r = 401%Z /\ fresh w) /\
  error (session (deliver sample_jwt_decode 0 (HttpReply r)
                    (call_bool 1 (login "a@b.com" "wrong") w)))
  = Some "Invalid credentials".
Proof.
  intros w r.
  assert (H1 : localStorage w = Some ∅) by reflexivity.
  assert (H2 : truthy ((∅ : gmap string string) !! "refreshToken") = false)
    by reflexivity.
  assert (H3 : intercepted w = true) by reflexivity.
  assert (H4 : status r = 401%Z) by reflexivity.
  assert (H5 : fresh w) by apply fresh_empty.
  split; [auto 10|].
  exact (f_equal (fun x => error (session x))
           (login_refused_signed_out sample_jwt_decode w ∅ 1 "a@b.com" "wrong" r
              H1 H2 H3 H4 H5)).
Defined.

Lemma mount_undecodable_token_witness :
  let m := sample_store (Some "garbage") (Some "R1") in
  let w := sample_world (Some m) initial_session false in
  (localStorage w = Some m /\ m !! "accessToken" = Some "garbage" /\
   "garbage" <> "" /\ m !! "refreshToken" = Some "R1" /\ "R1" <> "" /\
   sample_jwt_decode "garbage" = None /\ fresh w) /\
  session (mount sample_jwt_decode 0 1 w) = logged_out.
Proof.
  intros m w.
  assert (H1 : localStorage w = Some m) by reflexivity.
  assert (H2 : m !! "accessToken" = Some "garbage") by reflexivity.
  assert (H3 : "garbage" <> "") by discriminate.
  assert (H4 : m !! "refreshToken" = Some "R1") by reflexivity.
  assert (H5 : "R1" <> "") by discriminate.
  assert (H6 : sample_jwt_decode "garbage" = None) by reflexivity.
  assert (H7 : fresh w) by apply fresh_empty.
  split; [auto 10|].
  exact (proj1 (proj1 (mount_undecodable_token sample_jwt_decode w m "garbage"
                         "R1" 0 1 no_content H1 H2 H3 H4 H5 H6 H7))).
Defined.

Lemma refresh_undecodable_token_witness :
  let w := running_app in
  (localStorage w = Some pair_T1_R1 /\ pair_T1_R1 !! "refreshToken" = Some "R1" /\
   "R1" <> "" /\ validateStatus (status (renewed "garbage")) = true /\
   sample_jwt_decode (js_string (access_token (data (renewed "garbage")))) = None /\
   fresh w) /\
  stored "accessToken"
    (deliver sample_jwt_decode 0 (HttpReply (renewed "garbage"))
       (call_bool 1 (refreshAccessToken sample_jwt_decode) w))
  = Some "garbage".
Proof.
  intros w.
  assert (H1 : localStorage w = Some pair_T1_R1) by reflexivity.
  assert (H2 : pair_T1_R1 !! "refreshToken" = Some "R1") by reflexivity.
  assert (H3 : "R1" <> "") by discriminate.
  assert (H4 : validateStatus (status (renewed "garbage")) = true) by reflexivity.
  assert (H5 : sample_jwt_decode
                 (js_string (access_token (data (renewed "garbage")))) = None)
    by reflexivity.
  assert (H6 : fresh w) by apply fresh_empty.
  split; [auto 10|].
  exact (eq_trans
           (f_equal (stored "accessToken")
              (refresh_undecodable_token sample_jwt_decode w pair_T1_R1 "R1" 1
                 (renewed "garbage") H1 H2 H3 H4 H5 H6))
           eq_refl).
Defined.

Lemma refresh_without_token_witness :
  let m := sample_store (Some "T1") None in
  let w := sample_world (Some m) logged_in true in
  (localStorage w = Some m /\ truthy (m !! "refreshToken") = false) /\
  network (call_bool 1 (refreshAccessToken sample_jwt_decode) w)
  = [(Global, logout_config)].
Proof.
  intros m w.
  assert (H1 : localStorage w = Some m) by reflexivity.
  assert (H2 : truthy (m !! "refreshToken") = false) by reflexivity.
  split; [auto|].
  exact (f_equal network
           (refresh_without_token sample_jwt_decode w m 1 H1 H2)).
Defined.

Lemma guards_during_startup_renewal_witness :
  let w := sample_world (Some pair_T1_R1) initial_session false in
  let d := mkClaims "1" "a@b.com" "A" 1000 in
  let d' := mkClaims "1" "a@b.com" "A" 5000 in
  (localStorage w = Some pair_T1_R1 /\
   pair_T1_R1 !! "accessToken" = Some "T1" /\ "T1" <> "" /\
   pair_T1_R1 !! "refreshToken" = Some "R1" /\ "R1" <> "" /\
   sample_jwt_decode "T1" = Some d /\ (exp d * 1000 <? 2000000)%Z = true /\
   validateStatus (status (renewed "T2")) = true /\
   sample_jwt_decode (js_string (access_token (data (renewed "T2")))) = Some d' /\
   fresh w) /\
  ProtectedRoute (session (mount sample_jwt_decode 2000000 1 w))
  = Navigate "/login".
Proof.
  intros w d d'.
  assert (H1 : localStorage w = Some pair_T1_R1) by reflexivity.
  assert (H2 : pair_T1_R1 !! "accessToken" = Some "T1") by reflexivity.
  assert (H3 : "T1" <> "") by discriminate.
  assert (H4 : pair_T1_R1 !! "refreshToken" = Some "R1") by reflexivity.
  assert (H5 : "R1" <> "") by discriminate.
  assert (H6 : sample_jwt_decode "T1" = Some d) by reflexivity.
  assert (H7 : (exp d * 1000 <? 2000000)%Z = true) by reflexivity.
  assert (H8 : validateStatus (status (renewed "T2")) = true) by reflexivity.
  assert (H9 : sample_jwt_decode (js_string (access_token (data (renewed "T2"))))
               = Some d') by reflexivity.
  assert (H10 : fresh w) by apply fresh_empty.
  split; [auto 15|].
  exact (proj1 (proj2 (proj1
           (guards_during_startup_renewal sample_jwt_decode w pair_T1_R1 "T1" "R1"
              d d' 2000000 1 (renewed "T2")
              H1 H2 H3 H4 H5 H6 H7 H8 H9 H10)))).
Defined.

Lemma theme_round_trip_witness :
  (localStorage running_app = Some pair_T1_R1 /\ "dark" <> "") /\
  exists w1,
    run_sync (save_mode "dark") running_app = Some (w1, Fulfilled tt) /\
    run_sync savedMode_or_light w1 = Some (w1, Fulfilled "dark").
Proof.
  assert (H1 : localStorage running_app = Some pair_T1_R1) by reflexivity.
  assert (H2 : "dark" <> "") by discriminate.
  split; [auto|].
  destruct (theme_round_trip running_app pair_T1_R1 "dark" H1 H2)
    as (w1 & Hs & Hl & _).
  exists w1. split; [exact Hs|exact Hl].
Defined.

Lemma theme_toggle_persists_witness :
  localStorage themed_app = Some themed_store /\
  exists mode w1,
    run_sync savedMode_or_light themed_app = Some (themed_app, Fulfilled mode) /\
    run_sync savedMode_or_light w1 = Some (w1, Fulfilled (toggleTheme mode)).
Proof.
  assert (H1 : localStorage themed_app = Some themed_store) by reflexivity.
  split; [exact H1|].
  destruct (theme_toggle_persists themed_app themed_store H1)
    as (mode & w1 & Hr & _ & _ & Hl & _).
  exists mode, w1. split; [exact Hr|exact Hl].
Defined.
